(** * MovementAnalysis: head, eye and gesture session analysis

    A shallow embedding of [src/head_movement_analysis.py]
    (class [MovementAnalysis]) and the properties of its session report.

    Python values are modelled as follows.
    - [int] is [Z].
    - [float] is IEEE binary64, taken from the Standard Library's
      specification-level floats ([spec_float] with precision 53 and
      maximal exponent 1024); literals are the binary64 values Python
      reads them as.
    - [str] is [string]; a list holding both [str] and [int] is a list of
      [pyval].
    - the report [dt] is a finite map from field names to integers.
    - an exception is the [Raise] case of [outcome]. *)

From Stdlib Require Import ZArith List Floats Sorted.
From stdpp Require Import gmap strings list fin_maps.

Set Warnings "-inexact-float".

Local Open Scope Z_scope.

(** ** Exceptions and the error monad *)

Inductive exn :=
  | IndexError
  | UnboundLocalError
  | TypeError
  | ValueError
  | OverflowError
  | ZeroDivisionError
  | DoesNotExist.

Inductive outcome (A : Type) :=
  | Ok (a : A)
  | Raise (e : exn).

Arguments Ok {A} a.
Arguments Raise {A} e.

Definition obind {A B : Type} (m : outcome A) (k : A -> outcome B) : outcome B :=
  match m with
  | Ok a => k a
  | Raise e => Raise e
  end.

Notation "'let!' x ':=' m 'in' k" := (obind m (fun x => k))
  (at level 10, x strict pattern, m at level 200, k at level 200).

(** ** Binary64 arithmetic *)

Module Py.

Abbreviation float := spec_float.

Definition of_int (n : Z) : float := binary_normalize prec emax n 0 false.

Definition mul (x y : float) : float := SFmul prec emax x y.

(** [x / y] on floats raises [ZeroDivisionError] on a zero divisor. *)
Definition div (x y : float) : outcome float :=
  if SFeqb y (S754_zero false) then Raise ZeroDivisionError
  else Ok (SFdiv prec emax x y).

Definition lt (x y : float) : bool := SFltb x y.
Definition le (x y : float) : bool := SFleb x y.
Definition gt (x y : float) : bool := SFltb y x.
Definition ge (x y : float) : bool := SFleb y x.
Definition ne (x y : float) : bool := negb (SFeqb x y).

(** Round half to even of the rational [n / d], for [d > 0]. *)
Definition round_half_even (n d : Z) : Z :=
  let q := n / d in
  let r := n mod d in
  match 2 * r ?= d with
  | Lt => q
  | Gt => q + 1
  | Eq => if Z.even q then q else q + 1
  end.

(** The exact value of a finite float times [k], rounded half to even
    to an integer. *)
Definition round_scaled (k : Z) (s : bool) (m : positive) (e : Z) : Z :=
  let a :=
    match e with
    | Z.neg p => round_half_even (k * Z.pos m) (2 ^ Z.pos p)
    | _ => k * Z.pos m * 2 ^ e
    end in
  if s then - a else a.

(** [round(x, 1)]: the float nearest to the decimal obtained by rounding
    the exact value of [x] to one place, half to even. *)
Definition round1 (x : float) : float :=
  match x with
  | S754_finite s m e =>
      match round_scaled 10 s m e with
      | 0 => S754_zero s
      | n => SFdiv prec emax (of_int n) (of_int 10)
      end
  | _ => x
  end.

(** [int(x)]: truncation toward zero; raises on NaN and infinities. *)
Definition int (x : float) : outcome Z :=
  match x with
  | S754_zero _ => Ok 0
  | S754_finite s m e =>
      let a :=
        match e with
        | Z.neg p => Z.pos m / 2 ^ Z.pos p
        | _ => Z.pos m * 2 ^ e
        end in
      Ok (if s then - a else a)
  | S754_infinity _ => Raise OverflowError
  | S754_nan => Raise ValueError
  end.

(** [round(n / 2)] for an [int] n: [n / 2] is exact in binary64 for
    |n| < 2^53, and [round] with one argument rounds half to even. *)
Definition round_half (n : Z) : Z := round_half_even n 2.

End Py.

(** ** Numeric literals of the source *)

Definition c_0_71 : Py.float := Eval vm_compute in Prim2SF 0.71%float.
Definition c_1_45 : Py.float := Eval vm_compute in Prim2SF 1.45%float.
Definition c_1_33 : Py.float := Eval vm_compute in Prim2SF 1.33%float.
Definition c_2_10 : Py.float := Eval vm_compute in Prim2SF 2.10%float.
Definition c_12_3 : Py.float := Eval vm_compute in Prim2SF 12.3%float.
Definition c_0_95 : Py.float := Eval vm_compute in Prim2SF 0.95%float.
Definition c_0_05 : Py.float := Eval vm_compute in Prim2SF 0.05%float.
Definition c_0_50 : Py.float := Eval vm_compute in Prim2SF 0.50%float.

(** ** [head_movements] *)

Definition head_movements (vertical_ratio horizontal_ratio : Py.float) : string :=
  if Py.ge horizontal_ratio c_0_71 && Py.le horizontal_ratio c_1_45 then
    if Py.ge vertical_ratio c_1_33 && Py.le vertical_ratio c_2_10 then "Center"
    else if Py.lt vertical_ratio c_1_33 then "Upper"
    else if Py.gt vertical_ratio c_2_10 then "Down"
    else ""
  else if Py.lt horizontal_ratio c_0_71 then "Left"
  else if Py.gt horizontal_ratio c_1_45 then "Right"
  else "".

(** [x] lies in the closed interval [[lo, hi]]. *)
Definition within (x lo hi : Py.float) : Prop :=
  Py.ge x lo = true /\ Py.le x hi = true.

(** ** [gesture_score] *)

Definition no_gestures_statement : string :=
  "We didn’t see any gestures. Is this a missed opportunity? Consider using gestures to help you emphasize your key messages.".
Definition good_effort_statement : string :=
  "Good effort! You had some gestures, try using a few more.".
Definition awesome_statement : string :=
  "Awesome, that was magnificent! You are using your gestures to add interest.".
Definition too_much_statement : string :=
  "Phew! We can see you are using your hands. Maybe a little too much.".
Definition a_lot_statement : string :=
  "Ouch! There were a lot of gestures.".

Definition gesture_score (score n_samples : Z) : string :=
  let '(bar1, bar2, bar3, bar4) :=
    if n_samples <? 750 then (0, 100, 200, 300)
    else if (750 <=? n_samples) && (n_samples <=? 1250) then (0, 200, 400, 600)
    else (0, 400, 800, 1600) in
  if score =? 0 then no_gestures_statement
  else if (1 <=? score) && (score <=? bar2) then good_effort_statement
  else if (bar2 + 1 <=? score) && (score <=? bar3) then awesome_statement
  else if (bar3 + 1 <=? score) && (score <=? bar4) then too_much_statement
  else a_lot_statement.

(** The buckets [[b0, b1, b2, b3]] as the specification lists them. *)
Definition buckets (n_samples : Z) : Z * Z * Z * Z :=
  if decide (n_samples < 750) then (0, 100, 200, 300)
  else if decide (750 <= n_samples <= 1250) then (0, 200, 400, 600)
  else (0, 400, 800, 1600).

(** ** Per-frame observations of the collaborators *)

(** What a gaze tracker answers on one frame. *)
Record gaze := {
  refresh : outcome (Py.float * Py.float);
  is_right : bool;
  is_left : bool;
  is_center : bool
}.

(** What the collaborators answer on one decoded frame:
    - [frame_light]: [frame.mean()], [None] when the mean or the resize
      raised;
    - [hand]: whether [hands.process(image).multi_hand_landmarks] is
      truthy, or the exception of the colour conversion or the detector;
    - [face_data]: [headTracking.face_data(image)], a pair
      (face width, face brightness);
    - [selfie], [fullbody]: [headTrackingSelfie] and [headTracking]. *)
Record frame := {
  frame_light : option Py.float;
  hand : outcome bool;
  face_data : outcome (Py.float * Py.float);
  selfie : gaze;
  fullbody : gaze
}.

(** A Python value stored in the [results] list. *)
Inductive pyval :=
  | PStr (s : string)
  | PInt (n : Z).

#[global] Instance pyval_eq_dec : EqDecision pyval.
Proof. solve_decision. Defined.

(** [l.count(x)] *)
Definition count {A : Type} `{EqDecision A} (x : A) (l : list A) : Z :=
  Z.of_nat (length (filter (fun y => y = x) l)).

(** Truth value of a string: non-empty. *)
Definition truthy (s : string) : bool :=
  match s with
  | EmptyString => false
  | _ => true
  end.

(** [valuePix > 97]; comparing [None] with a number raises. *)
Definition brighter_than (valuePix : option Py.float) (n : Z) : outcome bool :=
  match valuePix with
  | Some x => Ok (Py.gt x (Py.of_int n))
  | None => Raise TypeError
  end.

Definition focal_length (measured_distance real_width width_in_rf_image : Py.float)
  : outcome Py.float :=
  Py.div (Py.mul width_in_rf_image measured_distance) real_width.

Definition distance_finder (focal_length real_face_width face_width_in_frame : Py.float)
  : outcome Py.float :=
  Py.div (Py.mul real_face_width focal_length) face_width_in_frame.

(** The body shared by the two regimes of [get_eyes_data]: refresh the
    tracker, classify the head, and under enough light ask the tracker for
    the eye direction. Returns the new
    [(text_eyes_movements, text_head_analysis)]. *)
Definition regime (tracker : gaze) (valuePix : option Py.float)
    (text_eyes_movements : string) : outcome (string * string) :=
  let! (vertical_ratio, horizontal_ratio) := refresh tracker in
  let text_head_analysis := head_movements vertical_ratio horizontal_ratio in
  let! bright := brighter_than valuePix 97 in
  let text_eyes_movements :=
    if bright then
      if is_right tracker then "Right"
      else if is_left tracker then "Left"
      else if is_center tracker then "Center"
      else text_eyes_movements
    else text_eyes_movements in
  Ok (text_eyes_movements, text_head_analysis).

Section Analysis.

(** [headTracking.face_data(def_image)], the reference image. *)
Variable ref_face : outcome (Py.float * Py.float).

(** The persistence collaborator behind [self.feedback]. *)
Variable feedback : Z -> gmap string Z -> outcome unit.

Definition known_distance : Z := 43.
Definition known_width : Py.float := c_12_3.
Definition mindistance_selfie : Z := 20.
Definition mindistance_fullbody : Z := 69.
Definition maxdistance_fullbody : Z := 140.

(** [get_eyes_data(image, valuePix)] with its default arguments.
    The local [distance] is [None] while it is unbound. *)
Definition get_eyes_data (image : frame) (valuePix : option Py.float)
  : outcome (string * string * string * string) :=
  let! (face_width, face_values) := face_data image in
  let! (face_width_img, face_values_img) := ref_face in
  let low_light_text :=
    if Py.le face_values (Py.of_int 65) then "Low Light Found" else "" in
  let text_eyes_movements := "" in
  let text_head_analysis := "" in
  let! focal_length_found :=
    focal_length (Py.of_int known_distance) known_width face_width_img in
  let! (distance, text_eyes_movements, text_head_analysis) :=
    (if Py.ne face_width (Py.of_int 0) then
       let! distance := distance_finder focal_length_found known_width face_width in
       let! (text_eyes_movements, text_head_analysis) :=
         (if Py.lt (Py.of_int mindistance_selfie) distance
             && Py.lt distance (Py.of_int mindistance_fullbody)
          then regime (selfie image) valuePix text_eyes_movements
          else Ok (text_eyes_movements, text_head_analysis)) in
       let! (text_eyes_movements, text_head_analysis) :=
         (if Py.le (Py.of_int mindistance_fullbody) distance
             && Py.le distance (Py.of_int maxdistance_fullbody)
          then regime (fullbody image) valuePix text_eyes_movements
          else Ok (text_eyes_movements, text_head_analysis)) in
       Ok (Some distance, text_eyes_movements, text_head_analysis)
     else Ok (None, text_eyes_movements, text_head_analysis)) in
  let text_yourfar := "" in
  let! distance :=
    match distance with
    | Some d => Ok d
    | None => Raise UnboundLocalError
    end in
  let text_yourfar :=
    if Py.gt distance (Py.of_int maxdistance_fullbody) then "You Are Too Far"
    else text_yourfar in
  Ok (low_light_text, text_eyes_movements, text_head_analysis, text_yourfar).

(** The lists the frame loop fills, and the frame counter [count]. *)
Record session := {
  head : list string;
  eyes : list string;
  errors : list string;
  gestures : list Z;
  frame_no : Z
}.

Definition new_session : session :=
  {| head := []; eyes := []; errors := []; gestures := []; frame_no := 1 |}.

(** [if s: l.append(s)] *)
Definition append_if (l : list string) (s : string) : list string :=
  if truthy s then l ++ [s] else l.

(** One turn of the [while True] loop on a decoded frame. Only
    [IndexError] is caught around [get_eyes_data]. *)
Definition process_frame (st : session) (fr : frame) : outcome session :=
  let gestures' :=
    match hand fr with
    | Ok true => gestures st ++ [frame_no st]
    | _ => gestures st
    end in
  let count := frame_no st + 1 in
  match get_eyes_data fr (frame_light fr) with
  | Ok (low_light_text, text_eyes_movements, text_head_results, your_toofar) =>
      let errors' := append_if (errors st) low_light_text in
      let errors' := append_if errors' your_toofar in
      Ok {| head := append_if (head st) text_head_results;
            eyes := append_if (eyes st) text_eyes_movements;
            errors := errors';
            gestures := gestures';
            frame_no := count |}
  | Raise IndexError =>
      Ok {| head := head st;
            eyes := eyes st;
            errors := errors st ++ ["No Face Found"];
            gestures := gestures';
            frame_no := count |}
  | Raise e => Raise e
  end.

(** The loop over the frames the capture yields before it ends. *)
Fixpoint run_frames (st : session) (video : list frame) : outcome session :=
  match video with
  | [] => Ok st
  | fr :: rest =>
      let! st' := process_frame st fr in
      run_frames st' rest
  end.

(** [results = head + eyes + gestures + errors] *)
Definition results (st : session) : list pyval :=
  (map PStr (head st ++ eyes st) ++ map PInt (gestures st)) ++ map PStr (errors st).

(** The loop splitting the gesture frames into the two halves. *)
Definition gesture_split (gestures : list Z) (half_length length : Z) : Z * Z :=
  fold_left
    (fun '(count_1, count_2) i =>
       let count_1 := if i <=? half_length then count_1 + 1 else count_1 in
       let count_2 :=
         if (half_length <? i) && (i <? length) then count_2 + 1 else count_2 in
       (count_1, count_2))
    gestures (0, 0).

(** [n > total * 0.50]: the product is exact in binary64, and Python
    compares an [int] with a [float] exactly. *)
Definition exceeds_half (n total : Z) : bool := total <? 2 * n.

(** The three tests setting [flag], in the order of the source. *)
Definition abort_flag (results : list pyval) : Z :=
  let total := Z.of_nat (length results) in
  let no_facefound := count (PStr "No Face Found") results in
  let low_lightfound := count (PStr "Low Light Found") results in
  let your_toofar := count (PStr "You Are Too Far") results in
  let flag := 0 in
  let flag := if exceeds_half low_lightfound total then 1 else flag in
  let flag := if exceeds_half your_toofar total then 2 else flag in
  let flag := if exceeds_half no_facefound total then 3 else flag in
  flag.

(** [int(round(n * ratio, 1))] *)
Definition weighted (n : Z) (ratio : Py.float) : outcome Z :=
  Py.int (Py.round1 (Py.mul (Py.of_int n) ratio)).

(** [int(round(h * ratioX, 1)) + int(round(e * ratioY, 1))] *)
Definition weighted_avg (h e : Z) (ratioX ratioY : Py.float) : outcome Z :=
  let! a := weighted h ratioX in
  let! b := weighted e ratioY in
  Ok (a + b).

(** The part of [head_and_eyes_analysis] after the frame loop. *)
Definition aggregate (st : session) (length : Z) (ratioX ratioY : Py.float)
    (itechnolabs_id : Z) : outcome (gmap string Z * Z) :=
  let results := results st in
  let length_1 := Z.of_nat (List.length (gestures st)) in
  let half_length := Py.round_half length in
  let '(count_1, count_2) := gesture_split (gestures st) half_length length in
  let statement1 := gesture_score count_1 half_length in
  let statement2 := gesture_score count_2 (length - half_length) in
  let flag := abort_flag results in
  if negb (existsb (Z.eqb flag) [1; 2; 3]) then
    let head_center := count "Center"%string (head st) in
    let head_up := count "Upper"%string (head st) in
    let head_down := count "Down"%string (head st) in
    let head_left := count "Left"%string (head st) in
    let head_right := count "Right"%string (head st) in
    let eyes_left := count "Left"%string (eyes st) in
    let eyes_right := count "Right"%string (eyes st) in
    let eyes_center := count "Center"%string (eyes st) in
    let! weighted_avgCenter := weighted_avg head_center eyes_center ratioX ratioY in
    let! weighted_avgLeft := weighted_avg head_left eyes_left ratioX ratioY in
    let! weighted_avgright := weighted_avg head_right eyes_right ratioX ratioY in
    let dt : gmap string Z :=
      <["center" := weighted_avgCenter]>
      (<["up" := head_up]>
      (<["down" := head_down]>
      (<["left" := weighted_avgLeft]>
      (<["right" := weighted_avgright]>
      (<["total_gesture" := length_1]>
      (<["first_gesture" := count_1]>
      (<["second_gesture" := count_2]> ∅))))))) in
    let! _ := feedback itechnolabs_id dt in
    Ok (dt, flag)
  else Ok (∅, flag).

(** [head_and_eyes_analysis]: [video] is the sequence of frames the
    capture yields, [length] the frame count it reports. *)
Definition head_and_eyes_analysis (video : list frame) (length : Z)
    (ratioX ratioY : Py.float) (itechnolabs_id : Z)
  : outcome (gmap string Z * Z) :=
  let! st := run_frames new_session video in
  aggregate st length ratioX ratioY itechnolabs_id.

End Analysis.

Arguments head_and_eyes_analysis ref_face feedback video length ratioX ratioY itechnolabs_id : simpl never.

(** ** Notions used to state the properties *)

(** The priority table of the specification: LowLight, then TooFar, then
    NoFaceFound; the first count above half of the results wins. *)
Definition first_exceeding_flag (results : list pyval) : Z :=
  let total := Z.of_nat (length results) in
  if exceeds_half (count (PStr "Low Light Found") results) total then 1
  else if exceeds_half (count (PStr "You Are Too Far") results) total then 2
  else if exceeds_half (count (PStr "No Face Found") results) total then 3
  else 0.

(** The report of a session that was not aborted. *)
Definition report (st : session) (length center left right : Z) : gmap string Z :=
  let half_length := Py.round_half length in
  <["center" := center]>
  (<["up" := count "Upper"%string (head st)]>
  (<["down" := count "Down"%string (head st)]>
  (<["left" := left]>
  (<["right" := right]>
  (<["total_gesture" := Z.of_nat (List.length (gestures st))]>
  (<["first_gesture" := fst (gesture_split (gestures st) half_length length)]>
  (<["second_gesture" := snd (gesture_split (gestures st) half_length length)]> ∅))))))).

(** Number of elements of [l] satisfying [P]. *)
Definition tally (P : Z -> Prop) `{forall i, Decision (P i)} (l : list Z) : Z :=
  Z.of_nat (length (filter P l)).


(** [round(x)] with one argument: the nearest integer, half to even. *)
Definition round0 (x : Py.float) : outcome Z :=
  match x with
  | S754_zero _ => Ok 0
  | S754_finite s m e => Ok (Py.round_scaled 1 s m e)
  | S754_infinity _ => Raise OverflowError
  | S754_nan => Raise ValueError
  end.


(** [round(n / 2)] computed in binary64, as the source writes it. *)
Definition round_half_binary64 (n : Z) : outcome Z :=
  let! q := Py.div (Py.of_int n) (Py.of_int 2) in
  round0 q.

(** [n > total * 0.50] computed in binary64, as the source writes it. *)
Definition exceeds_half_binary64 (n total : Z) : bool :=
  Py.gt (Py.of_int n) (Py.mul (Py.of_int total) c_0_50).

(** Neither NaN nor an infinity. *)
Definition is_finite (x : Py.float) : bool :=
  match x with
  | S754_zero _ | S754_finite _ _ _ => true
  | _ => false
  end.

(** The report whose eight statistics are all 0. *)
Definition zero_report : gmap string Z :=
  <["center" := 0]>
  (<["up" := 0]>
  (<["down" := 0]>
  (<["left" := 0]>
  (<["right" := 0]>
  (<["total_gesture" := 0]>
  (<["first_gesture" := 0]>
  (<["second_gesture" := 0]> ∅))))))).

(** ** [graph_pie] *)

Section GraphPie.

(** [np.sum] on the array of sizes. *)
Variable np_sum : list Py.float -> Py.float.

(** [plt.pie(sizes, colors=col, startangle=90, shadow=False, explode=explode)] *)
Variable plt_pie : list Py.float -> list string -> list Py.float -> outcome unit.

(** The two label formats: ["%s, %1.1f" % (l, int(s))] for a gesture
    chart and ["%s, %1.1f%%" % (l, float(s) / total * 100)] otherwise. *)
Variable format_label : bool -> Py.float -> string -> Py.float -> string.

(** [plt.legend], [plt.savefig] and [plt.close] on the new labels. *)
Variable plt_finish : list string -> string -> outcome unit.

(** [zip] stops at the shorter list. *)
Fixpoint zip_labels (f : string -> Py.float -> string)
    (labels : list string) (sizes : list Py.float) : list string :=
  match labels, sizes with
  | l :: labels, s :: sizes => f l s :: zip_labels f labels sizes
  | _, _ => []
  end.

(** [graph_pie]: [sizes] is [None] or a list of numbers; the result is
    [None] or the path. Every exception is caught and gives [None]. *)
Definition graph_pie (labels : list string) (sizes : option (list Py.float))
    (col : list string) (explode : list Py.float) (path gtype : string)
  : option string :=
  match sizes with
  | None => None
  | Some sizes =>
      if forallb (fun size => SFeqb size (Py.of_int 0)) sizes then None
      else
        let sizes := List.filter is_finite sizes in
        if (List.length sizes =? 0)%nat then None
        else if negb (List.length sizes =? List.length labels)%nat then None
        else
          match plt_pie sizes col explode with
          | Raise _ => None
          | Ok _ =>
              let total := np_sum sizes in
              if SFeqb total (Py.of_int 0) then None
              else
                let labels :=
                  zip_labels (format_label (String.eqb gtype "gesture") total)
                    labels sizes in
                match plt_finish labels path with
                | Raise _ => None
                | Ok _ => Some path
                end
          end
  end.

End GraphPie.

(** ** Further notions *)

(** The frame numbers, counted from [k], of the frames of a video on
    which a hand is detected. *)
Fixpoint hand_positions (k : Z) (video : list frame) : list Z :=
  match video with
  | [] => []
  | fr :: rest =>
      match hand fr with
      | Ok true => k :: hand_positions (k + 1) rest
      | _ => hand_positions (k + 1) rest
      end
  end.

(** The frame with another selfie tracker, or another full-body tracker. *)
Definition with_selfie (g : gaze) (image : frame) : frame :=
  {| frame_light := frame_light image; hand := hand image;
     face_data := face_data image; selfie := g; fullbody := fullbody image |}.

Definition with_fullbody (g : gaze) (image : frame) : frame :=
  {| frame_light := frame_light image; hand := hand image;
     face_data := face_data image; selfie := selfie image; fullbody := g |}.

Definition is_nan (x : Py.float) : bool :=
  match x with
  | S754_nan => true
  | _ => false
  end.

(** The five statements of [gesture_score], ranked from no gestures to a
    lot of gestures. *)
Definition severity (statement : string) : Z :=
  if String.eqb statement no_gestures_statement then 0
  else if String.eqb statement good_effort_statement then 1
  else if String.eqb statement awesome_statement then 2
  else if String.eqb statement too_much_statement then 3
  else 4.

Definition head_directions : list string :=
  ["Center"; "Upper"; "Down"; "Left"; "Right"]%string.

Definition eye_directions : list string := ["Right"; "Left"; "Center"]%string.

Definition error_texts : list string :=
  ["Low Light Found"; "You Are Too Far"; "No Face Found"]%string.

(** The frame whose mean or resize raised: it has no brightness. *)
Definition without_light (image : frame) : frame :=
  {| frame_light := None; hand := hand image;
     face_data := face_data image; selfie := selfie image;
     fullbody := fullbody image |}.

(** The frame on which the face measurer raises [IndexError]. *)
Definition without_face (image : frame) : frame :=
  {| frame_light := frame_light image; hand := hand image;
     face_data := Raise IndexError; selfie := selfie image;
     fullbody := fullbody image |}.

(** The two regime tests of [get_eyes_data] on a distance. *)
Definition in_selfie (d : Py.float) : bool :=
  Py.lt (Py.of_int mindistance_selfie) d && Py.lt d (Py.of_int mindistance_fullbody).

Definition in_fullbody (d : Py.float) : bool :=
  Py.le (Py.of_int mindistance_fullbody) d && Py.le d (Py.of_int maxdistance_fullbody).

(** Every recorded head result, eye result and error is one of the texts
    the frame loop can produce. *)
Definition recorded_values (st : session) : Prop :=
  Forall (fun s => In s head_directions) (head st) /\
  Forall (fun s => In s eye_directions) (eyes st) /\
  Forall (fun s => In s error_texts) (errors st).

(** ** Sample collaborators and sessions *)

Module Sample.

(** A tracker seeing a centred head and centred eyes. *)
Definition centred : gaze :=
  {| refresh := Ok (c_1_33, c_0_71);
     is_right := false; is_left := false; is_center := true |}.

(** The reference image shows a face 100 pixels wide. *)
Definition ref_face : outcome (Py.float * Py.float) :=
  Ok (Py.of_int 100, Py.of_int 120).

(** A persistence collaborator that stores every report. *)
Definition feedback (itechnolabs_id : Z) (dt : gmap string Z) : outcome unit :=
  Ok tt.

(** A frame with a face [width] pixels wide of brightness [face_light],
    mean pixel value [light], and a hand iff [h]. *)
Definition shot (width face_light light : Z) (h : bool) : frame :=
  {| frame_light := Some (Py.of_int light);
     hand := Ok h;
     face_data := Ok (Py.of_int width, Py.of_int face_light);
     selfie := centred;
     fullbody := centred |}.

(** A face at 43 cm, in the selfie regime. *)
Definition near (light : Z) (h : bool) : frame := shot 100 120 light h.

(** A dark face at 4.3 cm: closer than both regimes. *)
Definition dark : frame := shot 1000 50 100 false.

(** The face measurer finds a face of width 0. *)
Definition no_width : frame := shot 0 120 100 true.

(** Ten centred heads, four of them with centred eyes. *)
Definition ten_four : list frame :=
  repeat (near 100 false) 4 ++ repeat (near 90 false) 6.

(** Three frames with a hand in each; the capture reports 2 frames. *)
Definition three_hands : list frame := repeat (near 100 true) 3.

(** The run of [ten_four]. *)
Definition ten_four_session : session :=
  {| head := repeat "Center"%string 10;
     eyes := repeat "Center"%string 4;
     errors := [];
     gestures := [];
     frame_no := 11 |}.

(** The run of [three_hands]. *)
Definition three_hands_session : session :=
  {| head := repeat "Center"%string 3;
     eyes := repeat "Center"%string 3;
     errors := [];
     gestures := [1; 2; 3];
     frame_no := 4 |}.

End Sample.

(** ** Order facts on binary64 comparisons *)

Section FloatOrder.

Ltac order_cases :=
  repeat match goal with
    | |- context [PosDef.Pos.compare_cont Eq ?a ?b] =>
        change (PosDef.Pos.compare_cont Eq a b) with (Pos.compare a b)
    end;
  repeat match goal with
    | |- context [Z.compare ?a ?b] => destruct (Z.compare_spec a b)
    | |- context [Pos.compare ?a ?b] => destruct (Pos.compare_spec a b)
    end;
  simpl; try congruence; try lia.

Lemma SFltb_not_SFleb (x y : Py.float) :
  SFltb x y = true -> SFleb y x = false.
Proof.
  unfold SFltb, SFleb, SFcompare.
  destruct x as [[]|[]| |[] m e], y as [[]|[]| |[] m' e'];
    simpl; try congruence; order_cases.
Qed.

Lemma SFltb_trans (x y z : Py.float) :
  SFltb x y = true -> SFltb y z = true -> SFltb x z = true.
Proof.
  unfold SFltb, SFcompare.
  destruct x as [[]|[]| |[] m e], y as [[]|[]| |[] m' e'],
    z as [[]|[]| |[] m'' e''];
    simpl; try congruence; order_cases.
Qed.

Lemma SFltb_irrefl (x : Py.float) : SFltb x x = false.
Proof.
  unfold SFltb, SFcompare.
  destruct x as [[]|[]| |[] m e]; simpl; try congruence; order_cases.
Qed.

(** Two thresholds [a <= b] cannot both be passed on the outside. *)
Lemma SFltb_outside (a b x : Py.float) :
  SFleb a b = true -> SFltb b x = true -> SFltb x a = false.
Proof.
  intros Hab Hbx. destruct (SFltb x a) eqn:Hxa; [|reflexivity].
  pose proof (SFltb_trans _ _ _ Hbx Hxa) as Hba.
  apply SFltb_not_SFleb in Hba. congruence.
Qed.

End FloatOrder.

(** ** The head-orientation table *)

(** C3: [head_movements] returns Center exactly when the horizontal ratio
    lies in [0.71, 1.45] and the vertical ratio in [1.33, 2.10], Upper
    exactly when the horizontal ratio is in range and the vertical ratio is
    below 1.33, Down exactly when the horizontal ratio is in range and the
    vertical ratio is above 2.10, Left exactly when the horizontal ratio is
    below 0.71, Right exactly when it is above 1.45, and no direction in
    every other case; the four bounds belong to the Center row. *)
Theorem head_movements_table (v h : Py.float) :
  (head_movements v h = "Center" <->
     within h c_0_71 c_1_45 /\ within v c_1_33 c_2_10) /\
  (head_movements v h = "Upper" <->
     within h c_0_71 c_1_45 /\ Py.lt v c_1_33 = true) /\
  (head_movements v h = "Down" <->
     within h c_0_71 c_1_45 /\ Py.gt v c_2_10 = true) /\
  (head_movements v h = "Left" <-> Py.lt h c_0_71 = true) /\
  (head_movements v h = "Right" <-> Py.gt h c_1_45 = true) /\
  (head_movements v h = "" <->
     ~ (within h c_0_71 c_1_45 /\ within v c_1_33 c_2_10) /\
     ~ (within h c_0_71 c_1_45 /\ Py.lt v c_1_33 = true) /\
     ~ (within h c_0_71 c_1_45 /\ Py.gt v c_2_10 = true) /\
     Py.lt h c_0_71 = false /\ Py.gt h c_1_45 = false) /\
  head_movements c_1_33 c_0_71 = "Center" /\
  head_movements c_1_33 c_1_45 = "Center" /\
  head_movements c_2_10 c_0_71 = "Center" /\
  head_movements c_2_10 c_1_45 = "Center".
Proof.
  pose proof (SFltb_not_SFleb h c_0_71) as Hh1.
  pose proof (SFltb_not_SFleb c_1_45 h) as Hh2.
  pose proof (SFltb_outside c_0_71 c_1_45 h eq_refl) as Hh3.
  pose proof (SFltb_not_SFleb v c_1_33) as Hv1.
  pose proof (SFltb_not_SFleb c_2_10 v) as Hv2.
  pose proof (SFltb_outside c_1_33 c_2_10 v eq_refl) as Hv3.
  unfold head_movements, within, Py.ge, Py.le, Py.lt, Py.gt.
  destruct (SFleb c_0_71 h), (SFleb h c_1_45), (SFltb h c_0_71),
    (SFltb c_1_45 h); simpl;
    try (specialize (Hh1 eq_refl)); try (specialize (Hh2 eq_refl));
    try (specialize (Hh3 eq_refl)); try discriminate;
    destruct (SFleb c_1_33 v), (SFleb v c_2_10), (SFltb v c_1_33),
      (SFltb c_2_10 v); simpl;
    try (specialize (Hv1 eq_refl)); try (specialize (Hv2 eq_refl));
    try (specialize (Hv3 eq_refl)); try discriminate;
    repeat split; intros; try discriminate; try reflexivity;
    intuition discriminate.
Qed.

(** ** Integer forms of the binary64 computations *)

(** On the frame counts 0..2000 [Py.round_half] is [round(n / 2)] as
    binary64 computes it. *)
Lemma round_half_binary64_agrees :
  forallb (fun n => match round_half_binary64 n with
                    | Ok h => h =? Py.round_half n
                    | Raise _ => false
                    end)
    (map Z.of_nat (seq 0 2001)) = true.
Proof. vm_compute; reflexivity. Qed.

(** On all counts and totals up to 60 [exceeds_half] is the comparison
    [n > total * 0.50] as binary64 computes it. *)
Lemma exceeds_half_binary64_agrees :
  forallb (fun total =>
    forallb (fun n => Bool.eqb (exceeds_half_binary64 n total) (exceeds_half n total))
      (map Z.of_nat (seq 0 61)))
    (map Z.of_nat (seq 0 61)) = true.
Proof. vm_compute; reflexivity. Qed.

(** ** Counting *)

Section Counting.

Context {A : Type} `{EqDecision A}.

Lemma count_nonneg (x : A) (l : list A) : 0 <= count x l.
Proof. unfold count. lia. Qed.

Lemma count_le_length (x : A) (l : list A) : count x l <= Z.of_nat (length l).
Proof. unfold count. pose proof (length_filter (fun y => y = x) l). lia. Qed.

(** Occurrences of two different values are different elements. *)
Lemma count_two (x y : A) (l : list A) :
  x <> y -> count x l + count y l <= Z.of_nat (length l).
Proof.
  intros Hxy. unfold count.
  induction l as [|a l IH]; [simpl; lia|].
  rewrite !filter_cons. simpl length.
  destruct (decide (a = x)), (decide (a = y)); simpl length; subst;
    try congruence; lia.
Qed.

End Counting.

(** ** The abort flag *)

Lemma exceeds_half_exclusive (x y : pyval) (l : list pyval) :
  x <> y ->
  exceeds_half (count x l) (Z.of_nat (length l)) = true ->
  exceeds_half (count y l) (Z.of_nat (length l)) = false.
Proof.
  intros Hxy. unfold exceeds_half. pose proof (count_two x y l Hxy).
  intros Hx. apply Z.ltb_lt in Hx. apply Z.ltb_ge. lia.
Qed.

Lemma abort_flag_first_exceeding (l : list pyval) :
  abort_flag l = first_exceeding_flag l.
Proof.
  unfold abort_flag, first_exceeding_flag.
  pose proof (exceeds_half_exclusive (PStr "Low Light Found") (PStr "You Are Too Far") l) as H12.
  pose proof (exceeds_half_exclusive (PStr "Low Light Found") (PStr "No Face Found") l) as H13.
  pose proof (exceeds_half_exclusive (PStr "You Are Too Far") (PStr "No Face Found") l) as H23.
  destruct (exceeds_half (count (PStr "Low Light Found") l) _);
    [rewrite H12, H13 by (reflexivity || discriminate); reflexivity|].
  destruct (exceeds_half (count (PStr "You Are Too Far") l) _);
    [rewrite H23 by (reflexivity || discriminate); reflexivity|].
  reflexivity.
Qed.

Lemma abort_flag_range (l : list pyval) : In (abort_flag l) [0; 1; 2; 3].
Proof.
  unfold abort_flag.
  repeat match goal with |- context [exceeds_half ?a ?b] => destruct (exceeds_half a b) end;
    simpl; tauto.
Qed.

(** ** What a returned pair says about the run *)

Section Returned.

Variable ref_face : outcome (Py.float * Py.float).
Variable feedback : Z -> gmap string Z -> outcome unit.

Lemma analysis_returns video length ratioX ratioY id r :
  head_and_eyes_analysis ref_face feedback video length ratioX ratioY id = Ok r ->
  exists st, run_frames ref_face new_session video = Ok st /\
             aggregate feedback st length ratioX ratioY id = Ok r.
Proof.
  unfold head_and_eyes_analysis.
  destruct (run_frames ref_face new_session video) as [st|e]; simpl; [eauto|discriminate].
Qed.

Lemma aggregate_returns st length ratioX ratioY id dt flag :
  aggregate feedback st length ratioX ratioY id = Ok (dt, flag) ->
  flag = abort_flag (results st) /\
  ((In flag [1; 2; 3] /\ dt = ∅) \/
   (flag = 0 /\ exists center left right,
      weighted_avg (count "Center"%string (head st)) (count "Center"%string (eyes st))
        ratioX ratioY = Ok center /\
      weighted_avg (count "Left"%string (head st)) (count "Left"%string (eyes st))
        ratioX ratioY = Ok left /\
      weighted_avg (count "Right"%string (head st)) (count "Right"%string (eyes st))
        ratioX ratioY = Ok right /\
      dt = report st length center left right)).
Proof.
  unfold aggregate, report.
  destruct (gesture_split (gestures st) (Py.round_half length) length) as [count_1 count_2].
  pose proof (abort_flag_range (results st)) as Hr.
  destruct (negb (existsb (Z.eqb (abort_flag (results st))) [1; 2; 3])) eqn:Hin.
  - destruct (weighted_avg _ _ ratioX ratioY) as [center|]; simpl; [|discriminate].
    destruct (weighted_avg _ _ ratioX ratioY) as [left|]; simpl; [|discriminate].
    destruct (weighted_avg _ _ ratioX ratioY) as [right|]; simpl; [|discriminate].
    destruct (feedback id _); simpl; [|discriminate].
    intros [= <- <-]. split; [reflexivity|]. right. split.
    + simpl in Hr.
      destruct Hr as [H|[H|[H|[H|[]]]]]; rewrite <- H in *; [reflexivity|discriminate..].
    + exists center, left, right. auto.
  - intros [= <- <-]. split; [reflexivity|]. left. split; [|reflexivity].
    simpl in Hr.
    destruct Hr as [H0|Hr]; [rewrite <- H0 in Hin; discriminate|].
    simpl. tauto.
Qed.

Lemma report_nonempty st length center left right :
  report st length center left right <> ∅.
Proof.
  intros H. apply (f_equal (fun m : gmap string Z => m !! "center"%string)) in H.
  unfold report in H. rewrite lookup_insert_eq, lookup_empty in H. discriminate.
Qed.

Lemma aggregate_report st length ratioX ratioY id center left right :
  abort_flag (results st) = 0 ->
  weighted_avg (count "Center"%string (head st)) (count "Center"%string (eyes st))
    ratioX ratioY = Ok center ->
  weighted_avg (count "Left"%string (head st)) (count "Left"%string (eyes st))
    ratioX ratioY = Ok left ->
  weighted_avg (count "Right"%string (head st)) (count "Right"%string (eyes st))
    ratioX ratioY = Ok right ->
  feedback id (report st length center left right) = Ok tt ->
  aggregate feedback st length ratioX ratioY id
  = Ok (report st length center left right, 0).
Proof.
  intros Hflag Hc Hl Hr Hfb. unfold aggregate, report in *.
  destruct (gesture_split (gestures st) (Py.round_half length) length)
    as [count_1 count_2].
  simpl fst in Hfb. simpl snd in Hfb.
  rewrite Hflag, Hc, Hl, Hr. cbn [negb existsb Z.eqb orb obind].
  rewrite Hfb. reflexivity.
Qed.

Lemma analysis_report video st length ratioX ratioY id center left right :
  run_frames ref_face new_session video = Ok st ->
  abort_flag (results st) = 0 ->
  weighted_avg (count "Center"%string (head st)) (count "Center"%string (eyes st))
    ratioX ratioY = Ok center ->
  weighted_avg (count "Left"%string (head st)) (count "Left"%string (eyes st))
    ratioX ratioY = Ok left ->
  weighted_avg (count "Right"%string (head st)) (count "Right"%string (eyes st))
    ratioX ratioY = Ok right ->
  feedback id (report st length center left right) = Ok tt ->
  head_and_eyes_analysis ref_face feedback video length ratioX ratioY id
  = Ok (report st length center left right, 0).
Proof.
  intros Hrun. unfold head_and_eyes_analysis. rewrite Hrun. simpl.
  apply aggregate_report.
Qed.

End Returned.

(** ** The sample sessions *)

Lemma ten_four_runs :
  run_frames Sample.ref_face new_session Sample.ten_four = Ok Sample.ten_four_session.
Proof. vm_compute; reflexivity. Qed.


Lemma three_hands_runs :
  run_frames Sample.ref_face new_session Sample.three_hands
  = Ok Sample.three_hands_session.
Proof. vm_compute; reflexivity. Qed.

Lemma three_hands_returns :
  head_and_eyes_analysis Sample.ref_face Sample.feedback Sample.three_hands 2
    c_0_95 c_0_05 67 = Ok (report Sample.three_hands_session 2 2 0 0, 0).
Proof.
  apply analysis_report; [exact three_hands_runs|vm_compute; reflexivity..|reflexivity].
Qed.

(** ** Quality gating *)

(** C1: the abort flag a session returns is the one the priority table
    LowLight, TooFar, NoFaceFound gives on the counts among all recorded
    results, compared with half of their number; whenever the LowLight
    count is above half (in particular when the TooFar count is too) the
    flag is 1, and the flag is a single value among 0, 1, 2, 3. *)
Theorem abort_flag_priority
    (ref_face : outcome (Py.float * Py.float))
    (feedback : Z -> gmap string Z -> outcome unit)
    (video : list frame) (length : Z) (ratioX ratioY : Py.float) (id : Z)
    (dt : gmap string Z) (flag : Z) :
  head_and_eyes_analysis ref_face feedback video length ratioX ratioY id = Ok (dt, flag) ->
  exists st,
    run_frames ref_face new_session video = Ok st /\
    flag = first_exceeding_flag (results st) /\
    (exceeds_half (count (PStr "Low Light Found") (results st))
       (Z.of_nat (List.length (results st))) = true -> flag = 1) /\
    In flag [0; 1; 2; 3].
Proof.
  intros H. apply analysis_returns in H as (st & Hrun & Hagg).
  apply aggregate_returns in Hagg as [-> _].
  exists st. split; [exact Hrun|].
  split; [apply abort_flag_first_exceeding|].
  split; [|apply abort_flag_range].
  intros Hlow. rewrite abort_flag_first_exceeding.
  unfold first_exceeding_flag. rewrite Hlow. reflexivity.
Qed.

Lemma abort_flag_priority_witness :
  head_and_eyes_analysis Sample.ref_face Sample.feedback
    [Sample.dark; Sample.dark; Sample.near 90 false] 3 c_0_95 c_0_05 67 = Ok (∅, 1) /\
  exists st,
    run_frames Sample.ref_face new_session
      [Sample.dark; Sample.dark; Sample.near 90 false] = Ok st /\
    1 = first_exceeding_flag (results st) /\
    (exceeds_half (count (PStr "Low Light Found") (results st))
       (Z.of_nat (List.length (results st))) = true -> 1 = 1) /\
    In 1 [0; 1; 2; 3].
Proof.
  split; [vm_compute; reflexivity|].
  apply (abort_flag_priority Sample.ref_face Sample.feedback
           [Sample.dark; Sample.dark; Sample.near 90 false] 3 c_0_95 c_0_05 67 ∅ 1).
  vm_compute; reflexivity.
Defined.

(** C2: when the returned flag is 1, 2 or 3 the returned report is empty;
    a non-empty report comes only with flag 0, and flag 0 comes only with
    a non-empty report. *)
Theorem abort_report_empty
    (ref_face : outcome (Py.float * Py.float))
    (feedback : Z -> gmap string Z -> outcome unit)
    (video : list frame) (length : Z) (ratioX ratioY : Py.float) (id : Z)
    (dt : gmap string Z) (flag : Z) :
  head_and_eyes_analysis ref_face feedback video length ratioX ratioY id = Ok (dt, flag) ->
  (In flag [1; 2; 3] -> dt = ∅) /\
  (dt <> ∅ -> flag = 0) /\
  (flag = 0 -> dt <> ∅) /\
  In flag [0; 1; 2; 3].
Proof.
  intros H. apply analysis_returns in H as (st & _ & Hagg).
  apply aggregate_returns in Hagg as [_ [[Hin ->]|[-> (c & l & r & _ & _ & _ & ->)]]].
  - repeat split; try congruence.
    + intros ->. simpl in Hin. intuition discriminate.
    + simpl in *. tauto.
  - repeat split; try congruence.
    + simpl. intuition discriminate.
    + intros _. apply report_nonempty.
    + simpl. tauto.
Qed.

Lemma abort_report_empty_witness :
  head_and_eyes_analysis Sample.ref_face Sample.feedback
    [Sample.dark; Sample.dark] 2 c_0_95 c_0_05 67 = Ok (∅, 1) /\
  (In 1 [1; 2; 3] -> (∅ : gmap string Z) = ∅) /\
  ((∅ : gmap string Z) <> ∅ -> 1 = 0) /\
  (1 = 0 -> (∅ : gmap string Z) <> ∅) /\
  In 1 [0; 1; 2; 3].
Proof.
  split; [vm_compute; reflexivity|].
  apply (abort_report_empty Sample.ref_face Sample.feedback
           [Sample.dark; Sample.dark] 2 c_0_95 c_0_05 67 ∅ 1).
  vm_compute; reflexivity.
Defined.

(** ** Gesture scoring *)

(** C7: for a count of gestures (a non-negative integer) and any number of
    samples, [gesture_score] returns the no-gestures statement exactly for
    count 0, the good-effort statement exactly for 1..b1, the awesome
    statement exactly for b1+1..b2, the too-much statement exactly for
    b2+1..b3 and the a-lot statement exactly above b3, where [b0..b3] are
    0,100,200,300 below 750 samples, 0,200,400,600 from 750 to 1250, and
    0,400,800,1600 above. *)
Theorem gesture_score_buckets (count n_samples : Z) :
  0 <= count ->
  let '(b0, b1, b2, b3) := buckets n_samples in
  (gesture_score count n_samples = no_gestures_statement <-> count = 0) /\
  (gesture_score count n_samples = good_effort_statement <-> 1 <= count <= b1) /\
  (gesture_score count n_samples = awesome_statement <-> b1 + 1 <= count <= b2) /\
  (gesture_score count n_samples = too_much_statement <-> b2 + 1 <= count <= b3) /\
  (gesture_score count n_samples = a_lot_statement <-> count > b3).
Proof.
  intros Hc. unfold buckets, gesture_score.
  destruct (decide (n_samples < 750)) as [Hn|Hn].
  - apply Z.ltb_lt in Hn as ->.
    destruct (Z.eqb_spec count 0), (Z.leb_spec 1 count), (Z.leb_spec count 100),
      (Z.leb_spec (100 + 1) count), (Z.leb_spec count 200),
      (Z.leb_spec (200 + 1) count), (Z.leb_spec count 300); simpl;
      repeat split; intros; try lia; try discriminate; reflexivity.
  - replace (n_samples <? 750) with false by (symmetry; apply Z.ltb_ge; lia).
    destruct (decide (750 <= n_samples <= 1250)) as [Hm|Hm].
    + replace ((750 <=? n_samples) && (n_samples <=? 1250)) with true
        by (symmetry; apply andb_true_iff; split; apply Z.leb_le; lia).
      destruct (Z.eqb_spec count 0), (Z.leb_spec 1 count), (Z.leb_spec count 200),
        (Z.leb_spec (200 + 1) count), (Z.leb_spec count 400),
        (Z.leb_spec (400 + 1) count), (Z.leb_spec count 600); simpl;
        repeat split; intros; try lia; try discriminate; reflexivity.
    + replace ((750 <=? n_samples) && (n_samples <=? 1250)) with false
        by (symmetry; apply andb_false_iff; rewrite Z.leb_gt; lia).
      destruct (Z.eqb_spec count 0), (Z.leb_spec 1 count), (Z.leb_spec count 400),
        (Z.leb_spec (400 + 1) count), (Z.leb_spec count 800),
        (Z.leb_spec (800 + 1) count), (Z.leb_spec count 1600); simpl;
        repeat split; intros; try lia; try discriminate; reflexivity.
Qed.

Lemma gesture_score_buckets_witness :
  0 <= 250 /\
  (gesture_score 250 1000 = no_gestures_statement <-> 250 = 0) /\
  (gesture_score 250 1000 = good_effort_statement <-> 1 <= 250 <= 200) /\
  (gesture_score 250 1000 = awesome_statement <-> 200 + 1 <= 250 <= 400) /\
  (gesture_score 250 1000 = too_much_statement <-> 400 + 1 <= 250 <= 600) /\
  (gesture_score 250 1000 = a_lot_statement <-> 250 > 600).
Proof.
  split; [lia|]. apply (gesture_score_buckets 250 1000). lia.
Defined.

(** C8, as the specification states it, fails: 150 gestures in 500
    samples do not give the good-effort statement. *)
Lemma gesture_score_150_500_not_good_effort :
  gesture_score 150 500 <> good_effort_statement.
Proof. vm_compute. discriminate. Qed.

(** C8, amended: with 500 samples the buckets are 0,100,200,300, and
    150 gestures, lying in 101..200, give the awesome statement. *)
Theorem gesture_score_150_500 :
  buckets 500 = (0, 100, 200, 300) /\
  gesture_score 150 500 = awesome_statement.
Proof. split; reflexivity. Qed.

(** ** The half-session split *)


Lemma tally_disjoint (P Q : Z -> Prop)
    `{forall i, Decision (P i)} `{forall i, Decision (Q i)} (l : list Z) :
  (forall i, P i -> Q i -> False) ->
  tally P l + tally Q l <= Z.of_nat (length l).
Proof.
  intros HPQ. unfold tally. induction l as [|a l IH]; [simpl; lia|].
  rewrite !filter_cons. simpl length.
  destruct (decide (P a)), (decide (Q a)); simpl length; try lia.
  exfalso; eauto.
Qed.



Lemma gesture_split_from (l : list Z) (half_length length a b : Z) :
  fold_left
    (fun '(count_1, count_2) i =>
       let count_1 := if i <=? half_length then count_1 + 1 else count_1 in
       let count_2 :=
         if (half_length <? i) && (i <? length) then count_2 + 1 else count_2 in
       (count_1, count_2))
    l (a, b)
  = (a + tally (fun i => i <= half_length) l,
     b + tally (fun i => half_length < i < length) l).
Proof.
  revert a b. induction l as [|i l IH]; intros a b.
  - unfold tally. simpl. f_equal; lia.
  - simpl fold_left. rewrite IH. unfold tally. rewrite !filter_cons.
    destruct (Z.leb_spec i half_length), (Z.ltb_spec half_length i),
      (Z.ltb_spec i length); simpl andb; cbv iota;
      repeat case_decide; simpl List.length; f_equal; lia.
Qed.

Lemma gesture_split_tally (l : list Z) (half_length length : Z) :
  gesture_split l half_length length
  = (tally (fun i => i <= half_length) l,
     tally (fun i => half_length < i < length) l).
Proof. unfold gesture_split. rewrite gesture_split_from. reflexivity. Qed.

Lemma gesture_split_bounded (l : list Z) (half_length length : Z) :
  fst (gesture_split l half_length length) + snd (gesture_split l half_length length)
  <= Z.of_nat (List.length l).
Proof.
  rewrite gesture_split_tally. simpl. apply tally_disjoint. intros; lia.
Qed.






Lemma report_gestures st length center left right :
  report st length center left right !! "total_gesture"%string
    = Some (Z.of_nat (List.length (gestures st))) /\
  report st length center left right !! "first_gesture"%string
    = Some (fst (gesture_split (gestures st) (Py.round_half length) length)) /\
  report st length center left right !! "second_gesture"%string
    = Some (snd (gesture_split (gestures st) (Py.round_half length) length)).
Proof. unfold report. repeat split; vm_compute; reflexivity. Qed.


(** C10: in a report of a session that was not aborted the two half
    counts sum to at most the total gesture count, and the sum can be
    smaller: three gesture frames with a reported frame count of 2 leave
    frames 2 and 3 in neither half. *)
Theorem gesture_halves_bounded :
  (forall (ref_face : outcome (Py.float * Py.float))
          (feedback : Z -> gmap string Z -> outcome unit)
          (video : list frame) (length : Z) (ratioX ratioY : Py.float) (id : Z)
          (dt : gmap string Z),
     head_and_eyes_analysis ref_face feedback video length ratioX ratioY id = Ok (dt, 0) ->
     exists total first second,
       dt !! "total_gesture"%string = Some total /\
       dt !! "first_gesture"%string = Some first /\
       dt !! "second_gesture"%string = Some second /\
       first + second <= total) /\
  (exists dt,
     head_and_eyes_analysis Sample.ref_face Sample.feedback Sample.three_hands 2
       c_0_95 c_0_05 67 = Ok (dt, 0) /\
     dt !! "total_gesture"%string = Some 3 /\
     dt !! "first_gesture"%string = Some 1 /\
     dt !! "second_gesture"%string = Some 0).
Proof.
  split.
  - intros ref_face feedback video length ratioX ratioY id dt H.
    apply analysis_returns in H as (st & _ & Hagg).
    apply aggregate_returns in Hagg as [_ [[Hin _]|[_ (c & l & r & _ & _ & _ & ->)]]].
    + simpl in Hin. intuition discriminate.
    + destruct (report_gestures st length c l r) as (Ht & Hf & Hs).
      eexists _, _, _.
      split; [exact Ht|]. split; [exact Hf|]. split; [exact Hs|].
      apply gesture_split_bounded.
  - exists (report Sample.three_hands_session 2 2 0 0).
    split; [exact three_hands_returns|].
    apply report_gestures.
Qed.

(** ** Weighted composites *)




(** ** The empty video *)

Lemma weighted_zero (ratio : Py.float) :
  is_finite ratio = true -> weighted 0 ratio = Ok 0.
Proof. destruct ratio as [s|s| |s m e]; try discriminate; reflexivity. Qed.

Lemma weighted_avg_zero (ratioX ratioY : Py.float) :
  is_finite ratioX = true -> is_finite ratioY = true ->
  weighted_avg 0 0 ratioX ratioY = Ok 0.
Proof.
  intros HX HY. unfold weighted_avg.
  rewrite (weighted_zero _ HX), (weighted_zero _ HY). reflexivity.
Qed.

(** C5, as the specification states it, fails: on a video without frames
    the returned report is not the empty dictionary. *)
Lemma empty_video_report_not_empty :
  head_and_eyes_analysis Sample.ref_face Sample.feedback [] 0 c_0_95 c_0_05 67
  <> Ok (∅, 0).
Proof.
  rewrite (analysis_report Sample.ref_face Sample.feedback [] new_session 0
             c_0_95 c_0_05 67 0 0 0); try reflexivity.
  intros H. inversion H.
Qed.

(** C5, amended: on a video without frames, with finite weights and a
    persistence collaborator that accepts the report,
    [head_and_eyes_analysis] returns without raising the report whose
    eight statistics are 0, together with flag 0. *)
Theorem empty_video_report
    (ref_face : outcome (Py.float * Py.float))
    (feedback : Z -> gmap string Z -> outcome unit)
    (length : Z) (ratioX ratioY : Py.float) (id : Z) :
  is_finite ratioX = true ->
  is_finite ratioY = true ->
  feedback id zero_report = Ok tt ->
  head_and_eyes_analysis ref_face feedback [] length ratioX ratioY id
  = Ok (zero_report, 0) /\
  zero_report <> ∅.
Proof.
  intros HX HY Hfb.
  assert (report new_session length 0 0 0 = zero_report) as Hz.
  { unfold report. rewrite gesture_split_tally. reflexivity. }
  split.
  - rewrite <- Hz.
    apply analysis_report; try reflexivity;
      try (apply weighted_avg_zero; assumption).
    rewrite Hz. exact Hfb.
  - rewrite <- Hz. apply report_nonempty.
Qed.

Lemma empty_video_report_witness :
  is_finite c_0_95 = true /\
  is_finite c_0_05 = true /\
  Sample.feedback 67 zero_report = Ok tt /\
  head_and_eyes_analysis Sample.ref_face Sample.feedback [] 0 c_0_95 c_0_05 67
  = Ok (zero_report, 0) /\
  zero_report <> ∅.
Proof.
  split; [reflexivity|]. split; [reflexivity|]. split; [reflexivity|].
  apply (empty_video_report Sample.ref_face Sample.feedback 0 c_0_95 c_0_05 67);
    reflexivity.
Defined.

(** ** A face of width 0 *)

(** With a face of width 0 the local [distance] is never bound, and
    reading it raises. *)
Lemma get_eyes_data_zero_width ref_face image valuePix w v wi vi :
  face_data image = Ok (w, v) ->
  ref_face = Ok (wi, vi) ->
  Py.ne w (Py.of_int 0) = false ->
  get_eyes_data ref_face image valuePix = Raise UnboundLocalError.
Proof.
  intros Hf Hr Hw. unfold get_eyes_data. rewrite Hf, Hr. cbn [obind].
  unfold focal_length, Py.div.
  change (SFeqb known_width (S754_zero false)) with false. cbn [obind].
  rewrite Hw. reflexivity.
Qed.

(** C6 fails on the code: on a frame whose face has width 0 no distance is
    computed and no gaze tracker is asked, but [get_eyes_data] raises
    [UnboundLocalError], which the frame loop does not catch, so the
    exception leaves [head_and_eyes_analysis]; the frame is not recorded
    as a missing face. *)
Theorem zero_face_width_raises :
  face_data Sample.no_width = Ok (Py.of_int 0, Py.of_int 120) /\
  get_eyes_data Sample.ref_face Sample.no_width (frame_light Sample.no_width)
  = Raise UnboundLocalError /\
  process_frame Sample.ref_face new_session Sample.no_width = Raise UnboundLocalError /\
  head_and_eyes_analysis Sample.ref_face Sample.feedback [Sample.no_width] 1
    c_0_95 c_0_05 67 = Raise UnboundLocalError /\
  head_and_eyes_analysis Sample.ref_face Sample.feedback
    [Sample.near 100 false; Sample.no_width; Sample.near 100 false] 3
    c_0_95 c_0_05 67 = Raise UnboundLocalError.
Proof.
  assert (get_eyes_data Sample.ref_face Sample.no_width (frame_light Sample.no_width)
          = Raise UnboundLocalError) as H.
  { eapply get_eyes_data_zero_width; reflexivity. }
  split; [reflexivity|]. split; [exact H|].
  repeat split; vm_compute; reflexivity.
Qed.

(** ** More on [get_eyes_data] *)

Lemma regimes_exclusive (d : Py.float) :
  (in_selfie d = true -> in_fullbody d = false) /\
  (Py.gt d (Py.of_int maxdistance_fullbody) = true ->
     in_selfie d = false /\ in_fullbody d = false).
Proof.
  unfold in_selfie, in_fullbody, Py.lt, Py.le, Py.gt. split.
  - intros [_ H]%andb_true_iff. apply SFltb_not_SFleb in H. rewrite H. reflexivity.
  - intros H. split.
    + rewrite (SFltb_outside (Py.of_int mindistance_fullbody)
                 (Py.of_int maxdistance_fullbody) d eq_refl H).
      apply andb_false_r.
    + apply SFltb_not_SFleb in H. rewrite H. apply andb_false_r.
Qed.

(** What a normal return of [get_eyes_data] says. *)
Lemma get_eyes_data_returns ref_face image valuePix low eyes_t head_t far :
  get_eyes_data ref_face image valuePix = Ok (low, eyes_t, head_t, far) ->
  exists fw fv wi vi f d,
    face_data image = Ok (fw, fv) /\
    ref_face = Ok (wi, vi) /\
    focal_length (Py.of_int known_distance) known_width wi = Ok f /\
    Py.ne fw (Py.of_int 0) = true /\
    distance_finder f known_width fw = Ok d /\
    low = (if Py.le fv (Py.of_int 65) then "Low Light Found" else "")%string /\
    far = (if Py.gt d (Py.of_int maxdistance_fullbody)
           then "You Are Too Far" else "")%string /\
    ((in_selfie d = true /\ in_fullbody d = false /\
      regime (selfie image) valuePix "" = Ok (eyes_t, head_t)) \/
     (in_selfie d = false /\ in_fullbody d = true /\
      regime (fullbody image) valuePix "" = Ok (eyes_t, head_t)) \/
     (in_selfie d = false /\ in_fullbody d = false /\
      eyes_t = ""%string /\ head_t = ""%string)).
Proof.
  unfold get_eyes_data.
  destruct (face_data image) as [[fw fv]|]; [|discriminate].
  destruct ref_face as [[wi vi]|]; [|discriminate].
  cbn [obind].
  destruct (focal_length (Py.of_int known_distance) known_width wi) as [f|] eqn:Hfl;
    [|discriminate].
  cbn [obind].
  destruct (Py.ne fw (Py.of_int 0)) eqn:Hne; [|discriminate].
  destruct (distance_finder f known_width fw) as [d|] eqn:Hd; [|discriminate].
  cbn [obind].
  fold (in_selfie d). fold (in_fullbody d).
  destruct (regimes_exclusive d) as [Hsf _].
  destruct (in_selfie d) eqn:Hs.
  - rewrite (Hsf eq_refl).
    destruct (regime (selfie image) valuePix "") as [[e h]|] eqn:Hr; [|discriminate].
    cbn [obind]. intros [= <- <- <- <-].
    exists fw, fv, wi, vi, f, d.
    repeat (split; [first [reflexivity|assumption]|]). left. auto.
  - cbn [obind].
    destruct (in_fullbody d) eqn:Hf.
    + destruct (regime (fullbody image) valuePix "") as [[e h]|] eqn:Hr; [|discriminate].
      cbn [obind]. intros [= <- <- <- <-].
      exists fw, fv, wi, vi, f, d.
      repeat (split; [first [reflexivity|assumption]|]). right. left. auto.
    + cbn [obind]. intros [= <- <- <- <-].
      exists fw, fv, wi, vi, f, d.
      repeat (split; [first [reflexivity|assumption]|]). right. right. auto.
Qed.

Lemma regime_returns tracker valuePix current eyes_t head_t :
  regime tracker valuePix current = Ok (eyes_t, head_t) ->
  exists v h x,
    refresh tracker = Ok (v, h) /\ valuePix = Some x /\
    head_t = head_movements v h /\
    (Py.gt x (Py.of_int 97) = false -> eyes_t = current) /\
    (Py.gt x (Py.of_int 97) = true ->
       eyes_t = if is_right tracker then "Right"
                else if is_left tracker then "Left"
                else if is_center tracker then "Center" else current)%string.
Proof.
  unfold regime, brighter_than. generalize (Py.of_int 97). intros c.
  destruct (refresh tracker) as [[v h]|]; [|discriminate].
  destruct valuePix as [x|]; [|discriminate].
  cbn [obind]. intros [= <- <-]. exists v, h, x.
  repeat (split; [reflexivity|]).
  split; intros ->; reflexivity.
Qed.

(** X1: a frame reported as too far carries no head and no eye
    direction. *)
Theorem too_far_frame_has_no_direction
    (ref_face : outcome (Py.float * Py.float)) (image : frame)
    (valuePix : option Py.float) (low eyes_t head_t far : string) :
  get_eyes_data ref_face image valuePix = Ok (low, eyes_t, head_t, far) ->
  far <> ""%string ->
  far = "You Are Too Far"%string /\ eyes_t = ""%string /\ head_t = ""%string.
Proof.
  intros H Hfar.
  apply get_eyes_data_returns in H
    as (fw & fv & wi & vi & f & d & _ & _ & _ & _ & _ & _ & -> & Hreg).
  destruct (regimes_exclusive d) as [_ Hfar'].
  destruct (Py.gt d (Py.of_int maxdistance_fullbody)); [|done].
  destruct (Hfar' eq_refl) as [Hs Hf]. split; [reflexivity|].
  destruct Hreg as [(Hs' & _)|[(_ & Hf' & _)|(_ & _ & He & Hh)]]; [congruence..|auto].
Qed.

Lemma too_far_frame_has_no_direction_witness :
  get_eyes_data Sample.ref_face (Sample.shot 10 120 100 false)
    (Some (Py.of_int 100)) = Ok (""%string, ""%string, ""%string, "You Are Too Far"%string) /\
  "You Are Too Far"%string <> ""%string /\
  "You Are Too Far"%string = "You Are Too Far"%string /\
  ""%string = ""%string /\ ""%string = ""%string.
Proof.
  split; [vm_compute; reflexivity|]. split; [discriminate|].
  apply (too_far_frame_has_no_direction Sample.ref_face (Sample.shot 10 120 100 false)
           (Some (Py.of_int 100)) ""%string ""%string ""%string "You Are Too Far"%string);
    [vm_compute; reflexivity|discriminate].
Defined.

(** X2: on every frame the result of [get_eyes_data] depends on at most
    one of the two gaze trackers: replacing the full-body tracker never
    changes it, or replacing the selfie tracker never changes it. *)
Theorem one_tracker_per_frame
    (ref_face : outcome (Py.float * Py.float)) (image : frame)
    (valuePix : option Py.float) :
  (forall g, get_eyes_data ref_face (with_fullbody g image) valuePix
             = get_eyes_data ref_face image valuePix) \/
  (forall g, get_eyes_data ref_face (with_selfie g image) valuePix
             = get_eyes_data ref_face image valuePix).
Proof.
  unfold get_eyes_data. simpl face_data. simpl selfie. simpl fullbody.
  destruct (face_data image) as [[fw fv]|]; [|left; reflexivity].
  destruct ref_face as [[wi vi]|]; [|left; reflexivity].
  cbn [obind].
  destruct (focal_length (Py.of_int known_distance) known_width wi) as [f|];
    [|left; reflexivity].
  cbn [obind].
  destruct (Py.ne fw (Py.of_int 0)); [|left; reflexivity].
  destruct (distance_finder f known_width fw) as [d|]; [|left; reflexivity].
  cbn [obind]. fold (in_selfie d). fold (in_fullbody d).
  destruct (regimes_exclusive d) as [Hsf _].
  destruct (in_selfie d).
  - left. intros g. rewrite (Hsf eq_refl). reflexivity.
  - right. intros g. reflexivity.
Qed.

(** X3: when the frame brightness is not above 97, a returning
    [get_eyes_data] gives no eye direction. *)
Theorem dim_frame_has_no_eye_direction
    (ref_face : outcome (Py.float * Py.float)) (image : frame)
    (x : Py.float) (low eyes_t head_t far : string) :
  get_eyes_data ref_face image (Some x) = Ok (low, eyes_t, head_t, far) ->
  Py.gt x (Py.of_int 97) = false ->
  eyes_t = ""%string.
Proof.
  intros H Hx.
  apply get_eyes_data_returns in H
    as (fw & fv & wi & vi & f & d & _ & _ & _ & _ & _ & _ & _ & Hreg).
  destruct Hreg as [(_ & _ & Hr)|[(_ & _ & Hr)|(_ & _ & He & _)]]; [| |exact He];
    apply regime_returns in Hr as (v & h & x' & _ & [= <-] & _ & Hdim & _);
    exact (Hdim Hx).
Qed.

Lemma dim_frame_has_no_eye_direction_witness :
  get_eyes_data Sample.ref_face (Sample.near 97 false) (Some (Py.of_int 97))
  = Ok (""%string, ""%string, "Center"%string, ""%string) /\
  Py.gt (Py.of_int 97) (Py.of_int 97) = false /\
  ""%string = ""%string.
Proof.
  split; [vm_compute; reflexivity|]. split; [vm_compute; reflexivity|].
  apply (dim_frame_has_no_eye_direction Sample.ref_face (Sample.near 97 false)
           (Py.of_int 97) ""%string ""%string "Center"%string ""%string);
    vm_compute; reflexivity.
Defined.

(** X4: when the frame brightness is [None] (the mean or the resize
    raised), a returning [get_eyes_data] gives neither a head nor an eye
    direction: inside a regime the comparison [valuePix > 97] raises. *)
Theorem unlit_frame_has_no_direction
    (ref_face : outcome (Py.float * Py.float)) (image : frame)
    (low eyes_t head_t far : string) :
  get_eyes_data ref_face image None = Ok (low, eyes_t, head_t, far) ->
  eyes_t = ""%string /\ head_t = ""%string.
Proof.
  intros H.
  apply get_eyes_data_returns in H
    as (fw & fv & wi & vi & f & d & _ & _ & _ & _ & _ & _ & _ & Hreg).
  destruct Hreg as [(_ & _ & Hr)|[(_ & _ & Hr)|(_ & _ & He & Hh)]]; [| |auto];
    apply regime_returns in Hr as (v & h & x' & _ & [=] & _).
Qed.

Lemma unlit_frame_has_no_direction_witness :
  get_eyes_data Sample.ref_face (without_light Sample.dark) None
  = Ok ("Low Light Found"%string, ""%string, ""%string, ""%string) /\
  ""%string = ""%string /\ ""%string = ""%string.
Proof.
  split; [vm_compute; reflexivity|].
  apply (unlit_frame_has_no_direction Sample.ref_face (without_light Sample.dark)
           "Low Light Found"%string ""%string ""%string ""%string).
  vm_compute; reflexivity.
Defined.

(** X5: a frame without brightness whose face lies in a regime makes
    [get_eyes_data] raise [TypeError], and the frame loop lets it
    through. *)
Theorem unlit_frame_in_regime_raises
    (ref_face : outcome (Py.float * Py.float)) (st : session) (image : frame)
    (fw fv wi vi f d : Py.float) :
  frame_light image = None ->
  face_data image = Ok (fw, fv) ->
  ref_face = Ok (wi, vi) ->
  focal_length (Py.of_int known_distance) known_width wi = Ok f ->
  Py.ne fw (Py.of_int 0) = true ->
  distance_finder f known_width fw = Ok d ->
  (in_selfie d = true /\ (exists r, refresh (selfie image) = Ok r)) \/
  (in_fullbody d = true /\ (exists r, refresh (fullbody image) = Ok r)) ->
  get_eyes_data ref_face image None = Raise TypeError /\
  process_frame ref_face st image = Raise TypeError.
Proof.
  intros Hl Hface Href Hfl Hne Hd Hreg.
  assert (get_eyes_data ref_face image None = Raise TypeError) as H.
  { unfold get_eyes_data. rewrite Hface, Href. cbn [obind]. rewrite Hfl. cbn [obind].
    rewrite Hne, Hd. cbn [obind]. fold (in_selfie d). fold (in_fullbody d).
    destruct (regimes_exclusive d) as [Hsf _].
    destruct Hreg as [[Hs [[v h] Hr]]|[Hf [[v h] Hr]]].
    - rewrite Hs. unfold regime. rewrite Hr. reflexivity.
    - destruct (in_selfie d); [specialize (Hsf eq_refl); congruence|].
      cbn [obind]. rewrite Hf. unfold regime. rewrite Hr. reflexivity. }
  split; [exact H|]. unfold process_frame. rewrite Hl, H. reflexivity.
Qed.

Lemma unlit_frame_in_regime_raises_witness :
  get_eyes_data Sample.ref_face (without_light (Sample.near 100 false)) None
  = Raise TypeError /\
  process_frame Sample.ref_face new_session (without_light (Sample.near 100 false))
  = Raise TypeError.
Proof.
  eapply (unlit_frame_in_regime_raises Sample.ref_face new_session
            (without_light (Sample.near 100 false))).
  - reflexivity.
  - reflexivity.
  - reflexivity.
  - vm_compute; reflexivity.
  - vm_compute; reflexivity.
  - vm_compute; reflexivity.
  - left. split; [vm_compute; reflexivity|]. eexists. reflexivity.
Defined.

(** ** No direction means NaN *)

Lemma SFleb_total (x y : Py.float) :
  is_nan x = false -> is_nan y = false -> SFleb y x = false -> SFltb x y = true.
Proof.
  unfold SFltb, SFleb, SFcompare.
  destruct x as [[]|[]| |[] m e], y as [[]|[]| |[] m' e'];
    simpl; try congruence; intros _ _;
    repeat match goal with
      | |- context [PosDef.Pos.compare_cont Eq ?a ?b] =>
          change (PosDef.Pos.compare_cont Eq a b) with (Pos.compare a b)
      end;
    repeat match goal with
      | |- context [Z.compare ?a ?b] => destruct (Z.compare_spec a b)
      | |- context [Pos.compare ?a ?b] => destruct (Pos.compare_spec a b)
      end;
    simpl; try congruence; try lia.
Qed.

Lemma SFcompare_nan (x y : Py.float) :
  is_nan x = true ->
  SFltb x y = false /\ SFltb y x = false /\ SFleb x y = false /\ SFleb y x = false.
Proof.
  destruct x; try discriminate. intros _.
  unfold SFltb, SFleb. destruct y; simpl; auto.
Qed.

(** X6: [head_movements] gives no direction exactly when the horizontal
    ratio is NaN, or it lies in [0.71, 1.45] and the vertical ratio is NaN;
    on numbers, infinities included, it always names a direction. *)
Theorem head_movements_empty_iff_nan (v h : Py.float) :
  head_movements v h = ""%string <->
  is_nan h = true \/ (within h c_0_71 c_1_45 /\ is_nan v = true).
Proof.
  unfold head_movements, within, Py.ge, Py.le, Py.lt, Py.gt.
  destruct (is_nan h) eqn:Hh.
  - destruct (SFcompare_nan h c_0_71 Hh) as (-> & _ & _ & ->).
    destruct (SFcompare_nan h c_1_45 Hh) as (_ & -> & _ & _).
    simpl. intuition.
  - pose proof (SFleb_total h c_0_71 Hh eq_refl) as H1.
    pose proof (SFleb_total c_1_45 h eq_refl Hh) as H2.
    destruct (SFleb c_0_71 h); simpl.
    + destruct (SFleb h c_1_45); simpl.
      * destruct (is_nan v) eqn:Hv.
        -- destruct (SFcompare_nan v c_1_33 Hv) as (-> & _ & _ & ->).
           destruct (SFcompare_nan v c_2_10 Hv) as (_ & -> & _ & _).
           simpl. intuition.
        -- pose proof (SFleb_total v c_1_33 Hv eq_refl) as H3.
           pose proof (SFleb_total c_2_10 v eq_refl Hv) as H4.
           destruct (SFleb c_1_33 v); simpl.
           ++ destruct (SFleb v c_2_10); simpl.
              ** split; [discriminate|]. intros [|[_ ?]]; discriminate.
              ** destruct (SFltb v c_1_33);
                   [split; [discriminate|intros [|[_ ?]]; discriminate]|].
                 rewrite (H4 eq_refl).
                 split; [discriminate|intros [|[_ ?]]; discriminate].
           ++ rewrite (H3 eq_refl).
              split; [discriminate|intros [|[_ ?]]; discriminate].
      * destruct (SFltb h c_0_71);
          [split; [discriminate|intros [|[[_ ?] _]]; discriminate]|].
        rewrite (H2 eq_refl).
        split; [discriminate|intros [|[[_ ?] _]]; discriminate].
    + rewrite (H1 eq_refl).
      split; [discriminate|intros [|[[? _] _]]; discriminate].
Qed.

(** ** The frame loop *)


Lemma process_frame_gestures ref_face st fr st' :
  process_frame ref_face st fr = Ok st' ->
  gestures st' = gestures st ++ hand_positions (frame_no st) [fr] /\
  frame_no st' = frame_no st + 1.
Proof.
  unfold process_frame. intros H.
  assert (match hand fr with
          | Ok true => gestures st ++ [frame_no st]
          | _ => gestures st
          end = gestures st ++ hand_positions (frame_no st) [fr]) as Hg.
  { simpl. destruct (hand fr) as [[]|]; simpl; rewrite ?app_nil_r; reflexivity. }
  rewrite Hg in H.
  destruct (get_eyes_data ref_face fr (frame_light fr)) as [[[[? ?] ?] ?]|[]];
    try discriminate; injection H as <-; simpl; auto.
Qed.

Lemma hand_positions_app (k : Z) (video1 video2 : list frame) :
  hand_positions k (video1 ++ video2)
  = hand_positions k video1
    ++ hand_positions (k + Z.of_nat (List.length video1)) video2.
Proof.
  revert k. induction video1 as [|fr video1 IH]; intros k.
  - simpl. rewrite Z.add_0_r. reflexivity.
  - simpl. rewrite IH.
    replace (k + 1 + Z.of_nat (List.length video1))
      with (k + Z.pos (Pos.of_succ_nat (List.length video1))) by lia.
    destruct (hand fr) as [[]|]; reflexivity.
Qed.

Lemma run_frames_gestures ref_face video st st' :
  run_frames ref_face st video = Ok st' ->
  gestures st' = gestures st ++ hand_positions (frame_no st) video /\
  frame_no st' = frame_no st + Z.of_nat (List.length video).
Proof.
  revert st. induction video as [|fr video IH]; intros st.
  - simpl. intros [= <-]. rewrite app_nil_r. split; [reflexivity|lia].
  - simpl run_frames.
    destruct (process_frame ref_face st fr) as [st1|] eqn:H1; [|discriminate].
    cbn [obind]. intros H. apply IH in H as [Hg Hn].
    apply process_frame_gestures in H1 as [Hg1 Hn1].
    rewrite Hg, Hg1, Hn, Hn1, <- app_assoc.
    change (fr :: video) with ([fr] ++ video). rewrite hand_positions_app.
    simpl List.length. split; [reflexivity|lia].
Qed.

Lemma hand_positions_range (k : Z) (video : list frame) :
  Forall (fun i => k <= i < k + Z.of_nat (List.length video)) (hand_positions k video).
Proof.
  revert k. induction video as [|fr video IH]; intros k; [constructor|].
  simpl hand_positions.
  assert (Forall (fun i => k <= i < k + Z.of_nat (List.length (fr :: video)))
            (hand_positions (k + 1) video)) as Hrest.
  { eapply Forall_impl; [apply IH|]. simpl. intros i ?. lia. }
  destruct (hand fr) as [[]|]; auto.
  constructor; [simpl; lia|exact Hrest].
Qed.

Lemma hand_positions_sorted (k : Z) (video : list frame) :
  StronglySorted Z.lt (hand_positions k video).
Proof.
  revert k. induction video as [|fr video IH]; intros k; [constructor|].
  simpl. destruct (hand fr) as [[]|]; auto.
  constructor; [apply IH|].
  eapply Forall_impl; [apply hand_positions_range|]. simpl. intros i ?. lia.
Qed.

Lemma hand_positions_lookup (k i : Z) (video : list frame) :
  In i (hand_positions k video) <->
  k <= i /\ exists fr, video !! Z.to_nat (i - k) = Some fr /\ hand fr = Ok true.
Proof.
  revert k. induction video as [|fr video IH]; intros k.
  - simpl. split; [tauto|]. intros (_ & fr & H & _). discriminate.
  - assert (In i (hand_positions (k + 1) video) <->
            k + 1 <= i /\ exists fr', (fr :: video) !! Z.to_nat (i - k) = Some fr'
                                      /\ hand fr' = Ok true) as Hrest.
    { rewrite IH. split; intros (Hk & fr' & Hl & Hh); (split; [lia|]); exists fr'.
      - replace (Z.to_nat (i - k)) with (S (Z.to_nat (i - (k + 1)))) by lia. auto.
      - replace (Z.to_nat (i - k)) with (S (Z.to_nat (i - (k + 1)))) in Hl by lia.
        auto. }
    simpl hand_positions.
    assert (i = k \/ k + 1 <= i \/ i < k) as [->|[Hi|Hi]] by lia.
    + replace (Z.to_nat (k - k)) with 0%nat by lia. simpl.
      destruct (hand fr) as [[]|] eqn:Hh.
      * split; [|left; reflexivity]. intros _. split; [lia|]. exists fr. auto.
      * rewrite Hrest. split; [lia|]. intros (_ & fr' & [= <-] & ?). congruence.
      * rewrite Hrest. split; [lia|]. intros (_ & fr' & [= <-] & ?). congruence.
    + assert (In i (hand_positions k (fr :: video))
              <-> In i (hand_positions (k + 1) video)) as ->.
      { simpl. destruct (hand fr) as [[]|]; simpl; try tauto.
        split; [intros [|]; [lia|auto]|auto]. }
      rewrite Hrest. split; intros (? & ?); split; auto; lia.
    + split; [|lia]. intros Hin.
      pose proof (hand_positions_range k (fr :: video)) as Hr.
      rewrite Forall_forall in Hr. apply list_elem_of_In in Hin.
      specialize (Hr _ Hin). simpl in Hr. lia.
Qed.

(** X8: after a completed run over [n] frames the frame counter is
    [n + 1] and the gesture list holds exactly the numbers, counted from 1,
    of the frames with a hand, in increasing order; the outcome of the face
    analysis of a frame has no influence on it. *)
Theorem gestures_are_hand_frames
    (ref_face : outcome (Py.float * Py.float)) (video : list frame) (st : session) :
  run_frames ref_face new_session video = Ok st ->
  frame_no st = 1 + Z.of_nat (List.length video) /\
  gestures st = hand_positions 1 video /\
  StronglySorted Z.lt (gestures st) /\
  (forall i, In i (gestures st) <->
     1 <= i /\ exists fr, video !! Z.to_nat (i - 1) = Some fr /\ hand fr = Ok true) /\
  Forall (fun i => 1 <= i <= Z.of_nat (List.length video)) (gestures st).
Proof.
  intros H. apply run_frames_gestures in H as [Hg Hn]. simpl in Hg, Hn.
  rewrite Hg. split; [exact Hn|]. split; [reflexivity|].
  split; [apply hand_positions_sorted|].
  split; [intros i; apply hand_positions_lookup|].
  eapply Forall_impl; [apply hand_positions_range|]. simpl. intros i ?. lia.
Qed.

Lemma gestures_are_hand_frames_witness :
  run_frames Sample.ref_face new_session Sample.three_hands
  = Ok Sample.three_hands_session /\
  frame_no Sample.three_hands_session
  = 1 + Z.of_nat (List.length Sample.three_hands) /\
  gestures Sample.three_hands_session = hand_positions 1 Sample.three_hands /\
  StronglySorted Z.lt (gestures Sample.three_hands_session) /\
  (forall i, In i (gestures Sample.three_hands_session) <->
     1 <= i /\ exists fr, Sample.three_hands !! Z.to_nat (i - 1) = Some fr
                          /\ hand fr = Ok true) /\
  Forall (fun i => 1 <= i <= Z.of_nat (List.length Sample.three_hands))
    (gestures Sample.three_hands_session).
Proof.
  split; [exact three_hands_runs|].
  apply (gestures_are_hand_frames Sample.ref_face Sample.three_hands
           Sample.three_hands_session).
  exact three_hands_runs.
Defined.

(** ** What the lists hold *)

Lemma head_movements_values (v h : Py.float) :
  head_movements v h = ""%string \/ In (head_movements v h) head_directions.
Proof.
  unfold head_movements, head_directions.
  repeat match goal with |- context [if ?b then _ else _] => destruct b end;
    simpl; auto 10.
Qed.

Lemma get_eyes_data_values ref_face image valuePix low eyes_t head_t far :
  get_eyes_data ref_face image valuePix = Ok (low, eyes_t, head_t, far) ->
  (low = ""%string \/ low = "Low Light Found"%string) /\
  (eyes_t = ""%string \/ In eyes_t eye_directions) /\
  (head_t = ""%string \/ In head_t head_directions) /\
  (far = ""%string \/ far = "You Are Too Far"%string).
Proof.
  intros H.
  apply get_eyes_data_returns in H
    as (fw & fv & wi & vi & f & d & _ & _ & _ & _ & _ & -> & -> & Hreg).
  split; [destruct (Py.le fv _); auto|].
  assert (forall tracker, regime tracker valuePix "" = Ok (eyes_t, head_t) ->
            (eyes_t = ""%string \/ In eyes_t eye_directions) /\
            (head_t = ""%string \/ In head_t head_directions)) as Hregime.
  { intros tracker Hr.
    apply regime_returns in Hr as (v & h & x & _ & _ & -> & Hdim & Hbright).
    split; [|apply head_movements_values].
    destruct (Py.gt x (Py.of_int 97)); [|left; auto].
    rewrite (Hbright eq_refl). unfold eye_directions.
    destruct (is_right tracker), (is_left tracker), (is_center tracker);
      simpl; auto 10. }
  split; [|split].
  - destruct Hreg as [(_ & _ & Hr)|[(_ & _ & Hr)|(_ & _ & He & _)]];
      [apply (Hregime _ Hr)..|auto].
  - destruct Hreg as [(_ & _ & Hr)|[(_ & _ & Hr)|(_ & _ & _ & Hh)]];
      [apply (Hregime _ Hr)..|auto].
  - destruct (Py.gt d _); auto.
Qed.

Lemma append_if_Forall (P : string -> Prop) (l : list string) (s : string) :
  Forall P l -> s = ""%string \/ P s -> Forall P (append_if l s).
Proof.
  intros Hl [->|Hs]; [exact Hl|].
  unfold append_if. destruct (truthy s); [|exact Hl].
  apply Forall_app. split; [exact Hl|]. constructor; [exact Hs|constructor].
Qed.

Lemma append_if_length (l : list string) (s : string) :
  (List.length l <= List.length (append_if l s) <= List.length l + 1)%nat.
Proof.
  unfold append_if. destruct (truthy s); [rewrite length_app; simpl|]; lia.
Qed.

Lemma process_frame_values ref_face st fr st' :
  process_frame ref_face st fr = Ok st' -> recorded_values st -> recorded_values st'.
Proof.
  unfold process_frame, recorded_values. intros H (Hh & He & Hr).
  destruct (get_eyes_data ref_face fr (frame_light fr))
    as [[[[low eyes_t] head_t] far]|e] eqn:Hg.
  - apply get_eyes_data_values in Hg as (Hlow & Heyes & Hhead & Hfar).
    injection H as <-. simpl.
    split; [apply append_if_Forall; assumption|].
    split; [apply append_if_Forall; assumption|].
    apply append_if_Forall.
    + apply append_if_Forall; [assumption|].
      destruct Hlow as [->| ->]; [auto|right; simpl; auto].
    + destruct Hfar as [->| ->]; [auto|right; simpl; auto].
  - destruct e; try discriminate. injection H as <-. simpl.
    split; [assumption|]. split; [assumption|].
    apply Forall_app. split; [assumption|].
    constructor; [simpl; auto|constructor].
Qed.

Lemma run_frames_values ref_face video st st' :
  run_frames ref_face st video = Ok st' -> recorded_values st -> recorded_values st'.
Proof.
  revert st. induction video as [|fr video IH]; intros st; simpl.
  - intros [= <-]. auto.
  - destruct (process_frame ref_face st fr) as [st1|] eqn:H1; simpl; [|discriminate].
    intros H Hv. eapply IH; eauto using process_frame_values.
Qed.

Lemma count_cons {A : Type} `{EqDecision A} (x a : A) (l : list A) :
  count x (a :: l) = (if decide (a = x) then 1 else 0) + count x l.
Proof.
  unfold count. rewrite filter_cons. destruct (decide (a = x)); simpl length; lia.
Qed.

Lemma count_app {A : Type} `{EqDecision A} (x : A) (l k : list A) :
  count x (l ++ k) = count x l + count x k.
Proof. unfold count. rewrite filter_app, length_app. lia. Qed.

Lemma head_counts_sum (l : list string) :
  Forall (fun s => In s head_directions) l ->
  count "Center"%string l + count "Upper"%string l + count "Down"%string l
  + count "Left"%string l + count "Right"%string l = Z.of_nat (List.length l).
Proof.
  induction 1 as [|a l Ha _ IH]; [reflexivity|].
  rewrite !count_cons. simpl List.length. simpl in Ha.
  destruct Ha as [<-|[<-|[<-|[<-|[<-|[]]]]]];
    repeat case_decide; try discriminate; try congruence; lia.
Qed.

Lemma eye_counts_sum (l : list string) :
  Forall (fun s => In s eye_directions) l ->
  count "Center"%string l + count "Left"%string l + count "Right"%string l
  = Z.of_nat (List.length l).
Proof.
  induction 1 as [|a l Ha _ IH]; [reflexivity|].
  rewrite !count_cons. simpl List.length. simpl in Ha.
  destruct Ha as [<-|[<-|[<-|[]]]];
    repeat case_decide; try discriminate; try congruence; lia.
Qed.

(** X9: after a completed run every head result is one of Center, Upper,
    Down, Left, Right, every eye result one of Right, Left, Center and
    every error one of the three quality texts; so the five head counts of
    the aggregation add up to the number of head results and the three
    eye counts to the number of eye results. *)
Theorem recorded_values_partition
    (ref_face : outcome (Py.float * Py.float)) (video : list frame) (st : session) :
  run_frames ref_face new_session video = Ok st ->
  recorded_values st /\
  count "Center"%string (head st) + count "Upper"%string (head st)
  + count "Down"%string (head st) + count "Left"%string (head st)
  + count "Right"%string (head st) = Z.of_nat (List.length (head st)) /\
  count "Center"%string (eyes st) + count "Left"%string (eyes st)
  + count "Right"%string (eyes st) = Z.of_nat (List.length (eyes st)).
Proof.
  intros H.
  assert (recorded_values st) as Hv.
  { eapply run_frames_values; [exact H|]. repeat split; constructor. }
  split; [exact Hv|]. destruct Hv as (Hh & He & _).
  split; [apply head_counts_sum|apply eye_counts_sum]; assumption.
Qed.

Lemma recorded_values_partition_witness :
  run_frames Sample.ref_face new_session Sample.ten_four = Ok Sample.ten_four_session /\
  recorded_values Sample.ten_four_session /\
  count "Center"%string (head Sample.ten_four_session)
  + count "Upper"%string (head Sample.ten_four_session)
  + count "Down"%string (head Sample.ten_four_session)
  + count "Left"%string (head Sample.ten_four_session)
  + count "Right"%string (head Sample.ten_four_session)
  = Z.of_nat (List.length (head Sample.ten_four_session)) /\
  count "Center"%string (eyes Sample.ten_four_session)
  + count "Left"%string (eyes Sample.ten_four_session)
  + count "Right"%string (eyes Sample.ten_four_session)
  = Z.of_nat (List.length (eyes Sample.ten_four_session)).
Proof.
  split; [exact ten_four_runs|].
  apply (recorded_values_partition Sample.ref_face Sample.ten_four
           Sample.ten_four_session).
  exact ten_four_runs.
Defined.

Lemma process_frame_lengths ref_face st fr st' :
  process_frame ref_face st fr = Ok st' ->
  (List.length (head st') <= List.length (head st) + 1 /\
   List.length (eyes st') <= List.length (eyes st) + 1 /\
   List.length (errors st') <= List.length (errors st) + 2)%nat.
Proof.
  unfold process_frame. intros H.
  destruct (get_eyes_data ref_face fr (frame_light fr))
    as [[[[low eyes_t] head_t] far]|[]]; try discriminate;
    injection H as <-; simpl.
  - pose proof (append_if_length (head st) head_t).
    pose proof (append_if_length (eyes st) eyes_t).
    pose proof (append_if_length (errors st) low).
    pose proof (append_if_length (append_if (errors st) low) far).
    lia.
  - rewrite length_app. simpl. lia.
Qed.

Lemma run_frames_lengths ref_face video st st' :
  run_frames ref_face st video = Ok st' ->
  (List.length (head st') <= List.length (head st) + List.length video /\
   List.length (eyes st') <= List.length (eyes st) + List.length video /\
   List.length (errors st') <= List.length (errors st) + 2 * List.length video)%nat.
Proof.
  revert st. induction video as [|fr video IH]; intros st; simpl run_frames.
  - intros [= <-]. simpl. lia.
  - destruct (process_frame ref_face st fr) as [st1|] eqn:H1; [|discriminate].
    cbn [obind]. intros H. apply IH in H. apply process_frame_lengths in H1.
    simpl List.length. lia.
Qed.

Lemma hand_positions_length (k : Z) (video : list frame) :
  (List.length (hand_positions k video) <= List.length video)%nat.
Proof.
  revert k. induction video as [|fr video IH]; intros k; simpl; [lia|].
  specialize (IH (k + 1)). destruct (hand fr) as [[]|]; simpl; lia.
Qed.

(** X10: a decoded frame adds at most one head result, one eye result,
    one gesture and two errors, so after a completed run over [n] frames
    the number of recorded results is at most [5 * n]. *)
Theorem results_bounded
    (ref_face : outcome (Py.float * Py.float)) (video : list frame) (st : session) :
  run_frames ref_face new_session video = Ok st ->
  (List.length (head st) <= List.length video /\
   List.length (eyes st) <= List.length video /\
   List.length (gestures st) <= List.length video /\
   List.length (errors st) <= 2 * List.length video /\
   List.length (results st) <= 5 * List.length video)%nat.
Proof.
  intros H.
  pose proof (run_frames_lengths _ _ _ _ H) as (Hh & He & Hr). simpl in Hh, He, Hr.
  apply run_frames_gestures in H as [Hg _]. simpl in Hg.
  pose proof (hand_positions_length 1 video) as Hp. rewrite <- Hg in Hp.
  unfold results. rewrite !length_app, !length_map, length_app. lia.
Qed.

Lemma results_bounded_witness :
  run_frames Sample.ref_face new_session Sample.three_hands
  = Ok Sample.three_hands_session /\
  (List.length (head Sample.three_hands_session) <= List.length Sample.three_hands /\
   List.length (eyes Sample.three_hands_session) <= List.length Sample.three_hands /\
   List.length (gestures Sample.three_hands_session) <= List.length Sample.three_hands /\
   List.length (errors Sample.three_hands_session) <= 2 * List.length Sample.three_hands /\
   List.length (results Sample.three_hands_session)
   <= 5 * List.length Sample.three_hands)%nat.
Proof.
  split; [exact three_hands_runs|].
  apply (results_bounded Sample.ref_face Sample.three_hands Sample.three_hands_session).
  exact three_hands_runs.
Defined.

(** ** Failing frames *)

(** X11: if the reference image has a measured face and some frame of the
    video has a face of width 0, [head_and_eyes_analysis] raises, whatever
    the other frames and the collaborators are: no report is produced. *)
Theorem zero_width_frame_is_fatal
    (ref_face : outcome (Py.float * Py.float))
    (feedback : Z -> gmap string Z -> outcome unit)
    (video : list frame) (length : Z) (ratioX ratioY : Py.float) (id : Z)
    (wi vi : Py.float) :
  ref_face = Ok (wi, vi) ->
  Exists (fun fr => exists w v, face_data fr = Ok (w, v)
                                /\ Py.ne w (Py.of_int 0) = false) video ->
  exists e,
    head_and_eyes_analysis ref_face feedback video length ratioX ratioY id = Raise e.
Proof.
  intros Href Hex. unfold head_and_eyes_analysis.
  assert (forall st, exists e, run_frames ref_face st video = Raise e) as Hrun.
  { induction Hex as [fr rest (w & v & Hf & Hw)|fr rest _ IH]; intros st; simpl.
    - unfold process_frame.
      rewrite (get_eyes_data_zero_width ref_face fr (frame_light fr) w v wi vi Hf Href Hw).
      simpl. eauto.
    - destruct (process_frame ref_face st fr) as [st1|e]; simpl; eauto. }
  destruct (Hrun new_session) as [e ->]. simpl. eauto.
Qed.

Lemma zero_width_frame_is_fatal_witness :
  Sample.ref_face = Ok (Py.of_int 100, Py.of_int 120) /\
  Exists (fun fr => exists w v, face_data fr = Ok (w, v)
                                /\ Py.ne w (Py.of_int 0) = false)
    [Sample.near 100 true; Sample.no_width] /\
  exists e,
    head_and_eyes_analysis Sample.ref_face Sample.feedback
      [Sample.near 100 true; Sample.no_width] 2 c_0_95 c_0_05 67 = Raise e.
Proof.
  assert (Exists (fun fr => exists w v, face_data fr = Ok (w, v)
                                        /\ Py.ne w (Py.of_int 0) = false)
            [Sample.near 100 true; Sample.no_width]) as Hex.
  { apply Exists_cons_tl, Exists_cons_hd.
    exists (Py.of_int 0), (Py.of_int 120). split; reflexivity. }
  split; [reflexivity|]. split; [exact Hex|].
  apply (zero_width_frame_is_fatal Sample.ref_face Sample.feedback
           [Sample.near 100 true; Sample.no_width] 2 c_0_95 c_0_05 67
           (Py.of_int 100) (Py.of_int 120) eq_refl Hex).
Defined.

(** ** Aborted sessions and the persistence collaborator *)

Lemma aggregate_abort feedback st length ratioX ratioY id :
  abort_flag (results st) <> 0 ->
  aggregate feedback st length ratioX ratioY id = Ok (∅, abort_flag (results st)).
Proof.
  intros Hflag. unfold aggregate.
  destruct (gesture_split (gestures st) (Py.round_half length) length) as [c1 c2].
  pose proof (abort_flag_range (results st)) as Hr. simpl in Hr.
  destruct Hr as [H|[H|[H|[H|[]]]]]; rewrite <- H in *; [congruence|reflexivity..].
Qed.

(** X12: an aborted session never reaches the persistence collaborator:
    when [head_and_eyes_analysis] returns a flag other than 0 with one
    collaborator, it returns the same pair with any other one, also one
    that always raises. *)
Theorem abort_ignores_feedback
    (ref_face : outcome (Py.float * Py.float))
    (feedback feedback' : Z -> gmap string Z -> outcome unit)
    (video : list frame) (length : Z) (ratioX ratioY : Py.float) (id : Z)
    (dt : gmap string Z) (flag : Z) :
  head_and_eyes_analysis ref_face feedback video length ratioX ratioY id = Ok (dt, flag) ->
  flag <> 0 ->
  head_and_eyes_analysis ref_face feedback' video length ratioX ratioY id = Ok (dt, flag).
Proof.
  intros H Hflag. apply analysis_returns in H as (st & Hrun & Hagg).
  apply aggregate_returns in Hagg as [-> [[_ ->]|[H0 _]]]; [|congruence].
  unfold head_and_eyes_analysis. rewrite Hrun. simpl.
  apply aggregate_abort. exact Hflag.
Qed.

Lemma abort_ignores_feedback_witness :
  head_and_eyes_analysis Sample.ref_face Sample.feedback
    [Sample.dark; Sample.dark] 2 c_0_95 c_0_05 67 = Ok (∅, 1) /\
  1 <> 0 /\
  head_and_eyes_analysis Sample.ref_face (fun _ _ => Raise DoesNotExist)
    [Sample.dark; Sample.dark] 2 c_0_95 c_0_05 67 = Ok (∅, 1).
Proof.
  split; [vm_compute; reflexivity|]. split; [discriminate|].
  apply (abort_ignores_feedback Sample.ref_face Sample.feedback
           (fun _ _ => Raise DoesNotExist) [Sample.dark; Sample.dark] 2
           c_0_95 c_0_05 67 ∅ 1);
    [vm_compute; reflexivity|discriminate].
Defined.

(** X13: in a session that is not aborted an exception of the persistence
    collaborator leaves [head_and_eyes_analysis]: the computed report is
    not returned. *)
Theorem feedback_failure_is_fatal
    (ref_face : outcome (Py.float * Py.float))
    (feedback : Z -> gmap string Z -> outcome unit)
    (video : list frame) (length : Z) (ratioX ratioY : Py.float) (id : Z)
    (st : session) (e : exn) :
  run_frames ref_face new_session video = Ok st ->
  abort_flag (results st) = 0 ->
  (forall dt, feedback id dt = Raise e) ->
  exists e',
    head_and_eyes_analysis ref_face feedback video length ratioX ratioY id = Raise e'.
Proof.
  intros Hrun Hflag Hfb. unfold head_and_eyes_analysis. rewrite Hrun. simpl.
  unfold aggregate.
  destruct (gesture_split (gestures st) (Py.round_half length) length) as [c1 c2].
  rewrite Hflag. cbn [negb existsb Z.eqb orb].
  destruct (weighted_avg _ _ ratioX ratioY) as [c|]; simpl; [|eauto].
  destruct (weighted_avg _ _ ratioX ratioY) as [l|]; simpl; [|eauto].
  destruct (weighted_avg _ _ ratioX ratioY) as [r|]; simpl; [|eauto].
  rewrite Hfb. simpl. eauto.
Qed.

Lemma feedback_failure_is_fatal_witness :
  run_frames Sample.ref_face new_session Sample.three_hands
  = Ok Sample.three_hands_session /\
  abort_flag (results Sample.three_hands_session) = 0 /\
  (forall dt : gmap string Z,
     (fun (_ : Z) (_ : gmap string Z) => @Raise unit DoesNotExist) 67 dt
     = Raise DoesNotExist) /\
  exists e',
    head_and_eyes_analysis Sample.ref_face (fun _ _ => Raise DoesNotExist)
      Sample.three_hands 3 c_0_95 c_0_05 67 = Raise e'.
Proof.
  split; [exact three_hands_runs|]. split; [vm_compute; reflexivity|].
  split; [reflexivity|].
  apply (feedback_failure_is_fatal Sample.ref_face (fun _ _ => Raise DoesNotExist)
           Sample.three_hands 3 c_0_95 c_0_05 67 Sample.three_hands_session
           DoesNotExist three_hands_runs);
    [vm_compute; reflexivity|reflexivity].
Defined.

(** ** Videos without a face *)

Lemma no_face_run ref_face video st :
  Forall (fun fr => face_data fr = Raise IndexError) video ->
  run_frames ref_face st video
  = Ok {| head := head st;
          eyes := eyes st;
          errors := errors st ++ repeat "No Face Found"%string (List.length video);
          gestures := gestures st ++ hand_positions (frame_no st) video;
          frame_no := frame_no st + Z.of_nat (List.length video) |}.
Proof.
  intros Hall. revert st. induction Hall as [|fr rest Hf _ IH]; intros st.
  - simpl. rewrite !app_nil_r, Z.add_0_r. destruct st; reflexivity.
  - simpl run_frames. unfold process_frame, get_eyes_data. rewrite Hf.
    cbn [obind]. rewrite IH. cbn [head eyes errors gestures frame_no].
    f_equal. f_equal.
    + rewrite <- app_assoc. reflexivity.
    + simpl hand_positions.
      destruct (hand fr) as [[]|]; rewrite <- ?app_assoc; reflexivity.
    + simpl List.length. lia.
Qed.

Lemma count_map_PInt (s : string) (l : list Z) : count (PStr s) (map PInt l) = 0.
Proof.
  induction l as [|a l IH]; [reflexivity|].
  simpl map. rewrite count_cons, IH. case_decide; [discriminate|reflexivity].
Qed.

Lemma count_map_PStr_repeat (s t : string) (n : nat) :
  count (PStr s) (map PStr (repeat t n))
  = if decide (t = s) then Z.of_nat n else 0.
Proof.
  induction n as [|n IH]; [simpl; case_decide; reflexivity|].
  simpl repeat. simpl map. rewrite count_cons, IH.
  repeat case_decide; try congruence; lia.
Qed.

Lemma abort_flag_no_face (gs : list Z) (n : nat) :
  abort_flag ((map PStr ([] ++ []) ++ map PInt gs)
              ++ map PStr (repeat "No Face Found"%string n))
  = if (List.length gs <? n)%nat then 3 else 0.
Proof.
  unfold abort_flag. rewrite !count_app, !count_map_PInt, !count_map_PStr_repeat.
  rewrite !length_app, !length_map, repeat_length. simpl app. simpl List.length.
  unfold count at 1 2 3. simpl.
  repeat case_decide; try discriminate; try congruence.
  unfold exceeds_half. simpl Z.mul.
  destruct (Nat.ltb_spec (List.length gs) n);
    repeat match goal with |- context [?a <? ?b] => destruct (Z.ltb_spec a b) end;
    try lia; reflexivity.
Qed.

(** X14: when the face measurer raises [IndexError] on every frame, every
    frame counts as one missing face, and the session is aborted with flag
    3 and an empty report exactly when fewer gesture frames than frames
    were recorded; if a hand was detected on every frame the missing faces
    are only half of the results and a returned flag is 0. *)
Theorem faceless_video
    (ref_face : outcome (Py.float * Py.float))
    (feedback : Z -> gmap string Z -> outcome unit)
    (video : list frame) (length : Z) (ratioX ratioY : Py.float) (id : Z) :
  Forall (fun fr => face_data fr = Raise IndexError) video ->
  ((List.length (hand_positions 1 video) < List.length video)%nat ->
   head_and_eyes_analysis ref_face feedback video length ratioX ratioY id
   = Ok (∅, 3)) /\
  ((List.length (hand_positions 1 video) = List.length video)%nat ->
   forall dt flag,
     head_and_eyes_analysis ref_face feedback video length ratioX ratioY id
     = Ok (dt, flag) -> flag = 0).
Proof.
  intros Hall.
  pose proof (no_face_run ref_face video new_session Hall) as Hrun.
  cbn [head eyes errors gestures frame_no new_session app] in Hrun.
  set (st := {| head := []; eyes := []; errors := _; gestures := _; frame_no := _ |}) in Hrun.
  assert (abort_flag (results st)
          = if (List.length (hand_positions 1 video) <? List.length video)%nat
            then 3 else 0) as Hflag.
  { unfold results, st. cbn [head eyes errors gestures]. apply abort_flag_no_face. }
  split.
  - intros Hlt. apply Nat.ltb_lt in Hlt. rewrite Hlt in Hflag.
    unfold head_and_eyes_analysis. rewrite Hrun. cbn [obind].
    rewrite <- Hflag. apply aggregate_abort. rewrite Hflag. discriminate.
  - intros Heq dt flag H. apply analysis_returns in H as (st' & Hrun' & Hagg).
    rewrite Hrun in Hrun'. injection Hrun' as <-.
    apply aggregate_returns in Hagg as [-> _]. rewrite Hflag.
    destruct (Nat.ltb_spec (List.length (hand_positions 1 video)) (List.length video));
      [lia|reflexivity].
Qed.

Lemma faceless_video_witness :
  Forall (fun fr => face_data fr = Raise IndexError)
    [without_face (Sample.near 100 true); without_face (Sample.near 100 false)] /\
  ((List.length (hand_positions 1
      [without_face (Sample.near 100 true); without_face (Sample.near 100 false)])
    < 2)%nat ->
   head_and_eyes_analysis Sample.ref_face Sample.feedback
     [without_face (Sample.near 100 true); without_face (Sample.near 100 false)]
     2 c_0_95 c_0_05 67 = Ok (∅, 3)) /\
  ((List.length (hand_positions 1
      [without_face (Sample.near 100 true); without_face (Sample.near 100 false)])
    = 2)%nat ->
   forall dt flag,
     head_and_eyes_analysis Sample.ref_face Sample.feedback
       [without_face (Sample.near 100 true); without_face (Sample.near 100 false)]
       2 c_0_95 c_0_05 67 = Ok (dt, flag) -> flag = 0).
Proof.
  assert (Forall (fun fr => face_data fr = Raise IndexError)
            [without_face (Sample.near 100 true); without_face (Sample.near 100 false)])
    as Hall by (repeat constructor).
  split; [exact Hall|].
  apply (faceless_video Sample.ref_face Sample.feedback
           [without_face (Sample.near 100 true); without_face (Sample.near 100 false)]
           2 c_0_95 c_0_05 67 Hall).
Defined.

(** ** Gestures the halves keep and lose *)












(** ** Gesture statements grow with the count *)

Lemma severity_values :
  severity no_gestures_statement = 0 /\
  severity good_effort_statement = 1 /\
  severity awesome_statement = 2 /\
  severity too_much_statement = 3 /\
  severity a_lot_statement = 4.
Proof. repeat split; vm_compute; reflexivity. Qed.

Lemma gesture_score_severity (score n_samples : Z) :
  0 <= score ->
  severity (gesture_score score n_samples)
  = let '(_, b1, b2, b3) := buckets n_samples in
    if score =? 0 then 0
    else if score <=? b1 then 1
    else if score <=? b2 then 2
    else if score <=? b3 then 3
    else 4.
Proof.
  intros Hs. destruct severity_values as (S0 & S1 & S2 & S3 & S4).
  unfold gesture_score, buckets.
  destruct (decide (n_samples < 750)) as [Hn|Hn].
  - replace (n_samples <? 750) with true by (symmetry; apply Z.ltb_lt; lia).
    destruct (Z.eqb_spec score 0); [exact S0|].
    replace (1 <=? score) with true by (symmetry; apply Z.leb_le; lia). simpl andb.
    destruct (Z.leb_spec score 100); [exact S1|].
    replace (100 + 1 <=? score) with true by (symmetry; apply Z.leb_le; lia). simpl andb.
    destruct (Z.leb_spec score 200); [exact S2|].
    replace (200 + 1 <=? score) with true by (symmetry; apply Z.leb_le; lia). simpl andb.
    destruct (Z.leb_spec score 300); [exact S3|exact S4].
  - replace (n_samples <? 750) with false by (symmetry; apply Z.ltb_ge; lia).
    destruct (decide (750 <= n_samples <= 1250)) as [Hm|Hm].
    + replace ((750 <=? n_samples) && (n_samples <=? 1250)) with true
        by (symmetry; apply andb_true_iff; split; apply Z.leb_le; lia).
      destruct (Z.eqb_spec score 0); [exact S0|].
      replace (1 <=? score) with true by (symmetry; apply Z.leb_le; lia). simpl andb.
      destruct (Z.leb_spec score 200); [exact S1|].
      replace (200 + 1 <=? score) with true by (symmetry; apply Z.leb_le; lia). simpl andb.
      destruct (Z.leb_spec score 400); [exact S2|].
      replace (400 + 1 <=? score) with true by (symmetry; apply Z.leb_le; lia). simpl andb.
      destruct (Z.leb_spec score 600); [exact S3|exact S4].
    + replace ((750 <=? n_samples) && (n_samples <=? 1250)) with false
        by (symmetry; apply andb_false_iff; rewrite Z.leb_gt; lia).
      destruct (Z.eqb_spec score 0); [exact S0|].
      replace (1 <=? score) with true by (symmetry; apply Z.leb_le; lia). simpl andb.
      destruct (Z.leb_spec score 400); [exact S1|].
      replace (400 + 1 <=? score) with true by (symmetry; apply Z.leb_le; lia). simpl andb.
      destruct (Z.leb_spec score 800); [exact S2|].
      replace (800 + 1 <=? score) with true by (symmetry; apply Z.leb_le; lia). simpl andb.
      destruct (Z.leb_spec score 1600); [exact S3|exact S4].
Qed.

Ltac severity_cases :=
  unfold buckets;
  repeat case_decide;
  repeat match goal with
    | |- context [?a =? ?b] => destruct (Z.eqb_spec a b)
    | |- context [?a <=? ?b] => destruct (Z.leb_spec a b)
    end; lia.

(** X17: for a fixed number of samples the statement of [gesture_score]
    never moves back when the count of gestures grows: ranking the five
    statements from no gestures (0) to a lot of gestures (4), a larger count
    gets a rank at least as high. *)
Theorem gesture_score_monotone (score score' n_samples : Z) :
  0 <= score -> score <= score' ->
  severity (gesture_score score n_samples)
  <= severity (gesture_score score' n_samples).
Proof.
  intros H0 Hle. rewrite !gesture_score_severity by lia. severity_cases.
Qed.

Lemma gesture_score_monotone_witness :
  0 <= 100 /\ 100 <= 101 /\
  severity (gesture_score 100 500) <= severity (gesture_score 101 500).
Proof.
  split; [lia|]. split; [lia|]. apply (gesture_score_monotone 100 101 500); lia.
Defined.

(** X18: for a fixed count of gestures the statement of [gesture_score]
    never gets harsher when the number of samples grows. *)
Theorem gesture_score_antitone_in_samples (score n_samples n_samples' : Z) :
  0 <= score -> n_samples <= n_samples' ->
  severity (gesture_score score n_samples')
  <= severity (gesture_score score n_samples).
Proof.
  intros H0 Hle. rewrite !gesture_score_severity by lia. severity_cases.
Qed.

Lemma gesture_score_antitone_in_samples_witness :
  0 <= 150 /\ 749 <= 750 /\
  severity (gesture_score 150 750) <= severity (gesture_score 150 749).
Proof.
  split; [lia|]. split; [lia|].
  apply (gesture_score_antitone_in_samples 150 749 750); lia.
Defined.

(** ** [graph_pie] *)

Section GraphPieFacts.

Variable np_sum : list Py.float -> Py.float.
Variable plt_pie : list Py.float -> list string -> list Py.float -> outcome unit.
Variable format_label : bool -> Py.float -> string -> Py.float -> string.
Variable plt_finish : list string -> string -> outcome unit.


Lemma filter_keeps_all {A : Type} (p : A -> bool) (l : list A) :
  List.length (List.filter p l) = List.length l -> Forall (fun x => p x = true) l.
Proof.
  induction l as [|a l IH]; simpl; [constructor|].
  pose proof (List.filter_length_le p l) as Hle.
  destruct (p a) eqn:Ha; simpl; intros H; [|lia].
  constructor; [exact Ha|]. apply IH. lia.
Qed.


(** X20: with as many sizes as labels, one size that is NaN or infinite
    is enough for [graph_pie] to return [None]: the size is dropped and
    the remaining sizes no longer match the labels. *)
Theorem graph_pie_rejects_non_finite
    (labels : list string) (l : list Py.float)
    (col : list string) (explode : list Py.float) (path gtype : string) :
  List.length l = List.length labels ->
  Exists (fun x => is_finite x = false) l ->
  graph_pie np_sum plt_pie format_label plt_finish labels (Some l) col explode path gtype
  = None.
Proof.
  intros Hlen Hex. unfold graph_pie.
  destruct (forallb _ l); [reflexivity|].
  destruct (Nat.eqb_spec (List.length (List.filter is_finite l)) 0); [reflexivity|].
  destruct (Nat.eqb_spec (List.length (List.filter is_finite l)) (List.length labels))
    as [Hsame|Hdiff]; [|reflexivity].
  exfalso. assert (Forall (fun x => is_finite x = true) l) as Hall.
  { apply filter_keeps_all. congruence. }
  rewrite Forall_forall in Hall. apply Exists_exists in Hex as (x & Hin & Hx).
  rewrite (Hall x Hin) in Hx. discriminate.
Qed.

End GraphPieFacts.


Lemma graph_pie_rejects_non_finite_witness :
  List.length [Py.of_int 1; S754_nan] = List.length ["a"; "b"]%string /\
  Exists (fun x => is_finite x = false) [Py.of_int 1; S754_nan] /\
  graph_pie (fun _ => Py.of_int 1) (fun _ _ _ => Ok tt) (fun _ _ l _ => l)
    (fun _ _ => Ok tt) ["a"; "b"]%string (Some [Py.of_int 1; S754_nan])
    [] [] "pie.png"%string "head"%string = None.
Proof.
  assert (Exists (fun x => is_finite x = false) [Py.of_int 1; S754_nan]) as Hex.
  { apply Exists_cons_tl, Exists_cons_hd. reflexivity. }
  split; [reflexivity|]. split; [exact Hex|].
  apply (graph_pie_rejects_non_finite (fun _ => Py.of_int 1) (fun _ _ _ => Ok tt)
           (fun _ _ l _ => l) (fun _ _ => Ok tt) ["a"; "b"]%string
           [Py.of_int 1; S754_nan] [] [] "pie.png"%string "head"%string eq_refl Hex).
Defined.

(** ** More on the aggregation *)

(** X21: among the recorded results of any session at most one of the
    three quality texts occurs in more than half of them, so the three
    tests that set the flag never compete. *)
Theorem at_most_one_text_dominates (st : session) :
  let total := Z.of_nat (List.length (results st)) in
  let low := exceeds_half (count (PStr "Low Light Found") (results st)) total in
  let far := exceeds_half (count (PStr "You Are Too Far") (results st)) total in
  let no_face := exceeds_half (count (PStr "No Face Found") (results st)) total in
  (low = true -> far = false /\ no_face = false) /\
  (far = true -> low = false /\ no_face = false) /\
  (no_face = true -> low = false /\ far = false).
Proof.
  cbv zeta.
  split; [|split]; intros Hx; split;
    (eapply exceeds_half_exclusive; [|exact Hx]); discriminate.
Qed.

Lemma report_counts st length center left right :
  report st length center left right !! "up"%string
    = Some (count "Upper"%string (head st)) /\
  report st length center left right !! "down"%string
    = Some (count "Down"%string (head st)) /\
  dom (report st length center left right)
    = list_to_set ["center"; "up"; "down"; "left"; "right"; "total_gesture";
                   "first_gesture"; "second_gesture"]%string.
Proof.
  unfold report. split; [vm_compute; reflexivity|]. split; [vm_compute; reflexivity|].
  rewrite !dom_insert_L, dom_empty_L. simpl list_to_set. set_solver.
Qed.

(** X22: the report of a session that was not aborted has exactly the
    eight fields center, up, down, left, right, total_gesture,
    first_gesture and second_gesture; up and down are the plain numbers of
    Upper and Down head results, total_gesture the number of gesture
    frames, and none of them exceeds the number of decoded frames. *)
Theorem report_fields
    (ref_face : outcome (Py.float * Py.float))
    (feedback : Z -> gmap string Z -> outcome unit)
    (video : list frame) (length : Z) (ratioX ratioY : Py.float) (id : Z)
    (dt : gmap string Z) :
  head_and_eyes_analysis ref_face feedback video length ratioX ratioY id = Ok (dt, 0) ->
  exists st,
    run_frames ref_face new_session video = Ok st /\
    dom dt = list_to_set ["center"; "up"; "down"; "left"; "right"; "total_gesture";
                          "first_gesture"; "second_gesture"]%string /\
    dt !! "up"%string = Some (count "Upper"%string (head st)) /\
    dt !! "down"%string = Some (count "Down"%string (head st)) /\
    dt !! "total_gesture"%string = Some (Z.of_nat (List.length (gestures st))) /\
    0 <= count "Upper"%string (head st) /\
    0 <= count "Down"%string (head st) /\
    count "Upper"%string (head st) + count "Down"%string (head st)
    <= Z.of_nat (List.length video) /\
    Z.of_nat (List.length (gestures st)) <= Z.of_nat (List.length video).
Proof.
  intros H. apply analysis_returns in H as (st & Hrun & Hagg).
  apply aggregate_returns in Hagg as [_ [[Hin _]|[_ (c & l & r & _ & _ & _ & ->)]]].
  { simpl in Hin. intuition discriminate. }
  exists st. split; [exact Hrun|].
  destruct (report_counts st length c l r) as (Hup & Hdown & Hdom).
  destruct (report_gestures st length c l r) as (Htotal & _).
  split; [exact Hdom|]. split; [exact Hup|]. split; [exact Hdown|].
  split; [exact Htotal|].
  split; [apply count_nonneg|]. split; [apply count_nonneg|].
  pose proof (run_frames_lengths _ _ _ _ Hrun) as (Hh & _). simpl in Hh.
  pose proof (count_two "Upper"%string "Down"%string (head st) ltac:(discriminate)).
  apply run_frames_gestures in Hrun as [Hg _]. simpl in Hg.
  pose proof (hand_positions_length 1 video) as Hp. rewrite <- Hg in Hp.
  split; lia.
Qed.

Lemma report_fields_witness :
  head_and_eyes_analysis Sample.ref_face Sample.feedback Sample.three_hands 2
    c_0_95 c_0_05 67 = Ok (report Sample.three_hands_session 2 2 0 0, 0) /\
  exists st,
    run_frames Sample.ref_face new_session Sample.three_hands = Ok st /\
    dom (report Sample.three_hands_session 2 2 0 0)
    = list_to_set ["center"; "up"; "down"; "left"; "right"; "total_gesture";
                   "first_gesture"; "second_gesture"]%string /\
    report Sample.three_hands_session 2 2 0 0 !! "up"%string
    = Some (count "Upper"%string (head st)) /\
    report Sample.three_hands_session 2 2 0 0 !! "down"%string
    = Some (count "Down"%string (head st)) /\
    report Sample.three_hands_session 2 2 0 0 !! "total_gesture"%string
    = Some (Z.of_nat (List.length (gestures st))) /\
    0 <= count "Upper"%string (head st) /\
    0 <= count "Down"%string (head st) /\
    count "Upper"%string (head st) + count "Down"%string (head st)
    <= Z.of_nat (List.length Sample.three_hands) /\
    Z.of_nat (List.length (gestures st)) <= Z.of_nat (List.length Sample.three_hands).
Proof.
  split; [exact three_hands_returns|].
  apply (report_fields Sample.ref_face Sample.feedback Sample.three_hands 2
           c_0_95 c_0_05 67).
  exact three_hands_returns.
Defined.
